(** * ga4-beacon: request handling of the GA4 tracking beacon

    A shallow embedding of [ga-beacon.go]: the functions of the Go standard
    library the handler calls on strings ([strings.Trim], [strings.SplitN],
    [strings.Replace], [hex.EncodeToString], [strconv.FormatInt]), the
    identity generator, the event builder, the dispatcher (with the panic
    it runs into when the request to the collect address cannot be built)
    and the handler itself, followed by the properties of the request
    pipeline. *)

From Stdlib Require Import ZArith NArith Ascii String DecimalString DecimalPos DecimalZ.
From stdpp Require Import base option list gmap strings.

Local Open Scope Z_scope.
Local Open Scope stdpp_scope.

(** ** The Go [strings] package, as far as the handler uses it

    Go strings are byte sequences; [string] is a sequence of 8-bit [ascii]
    values, so the two agree byte for byte. *)
Module GoStrings.

(** [after_prefix prefix s] is [Some rest] when [s = prefix ++ rest]
    ([strings.CutPrefix]). *)
Fixpoint after_prefix (prefix s : string) : option string :=
  match prefix, s with
  | EmptyString, _ => Some s
  | String p prefix', String a s' =>
      if decide (p = a) then after_prefix prefix' s' else None
  | String _ _, EmptyString => None
  end.

(** [Cut s sep] splits [s] around the first (leftmost) instance of [sep]
    ([strings.Cut], which is [strings.Index] followed by two slices). *)
Fixpoint Cut (s sep : string) : option (string * string) :=
  match after_prefix sep s with
  | Some rest => Some (EmptyString, rest)
  | None =>
      match s with
      | EmptyString => None
      | String a s' =>
          match Cut s' sep with
          | Some (before, after) => Some (String a before, after)
          | None => None
          end
      end
  end.

(** [strings.SplitN(s, sep, n)] for [n >= 0] and a non-empty [sep]: at most
    [n] substrings, the last one being the unsplit remainder. *)
Fixpoint SplitN (s sep : string) (n : nat) : list string :=
  match n with
  | O => []
  | S n' =>
      match n' with
      | O => [s]
      | S _ =>
          match Cut s sep with
          | Some (before, after) => before :: SplitN after sep n'
          | None => [s]
          end
      end
  end.

(** [strings.Replace(s, old, new, n)] for [n >= 0]: the first [n]
    non-overlapping instances of [old] are replaced by [new]. *)
Fixpoint Replace (s old new : string) (n : nat) : string :=
  match n with
  | O => s
  | S n' =>
      match Cut s old with
      | Some (before, after) => before +:+ new +:+ Replace after old new n'
      | None => s
      end
  end.

Fixpoint in_cutset (cutset : string) (a : ascii) : bool :=
  match cutset with
  | EmptyString => false
  | String c cutset' => if decide (c = a) then true else in_cutset cutset' a
  end.

Fixpoint TrimLeft (s cutset : string) : string :=
  match s with
  | EmptyString => EmptyString
  | String a s' => if in_cutset cutset a then TrimLeft s' cutset else s
  end.

Fixpoint TrimRight (s cutset : string) : string :=
  match s with
  | EmptyString => EmptyString
  | String a s' =>
      match TrimRight s' cutset with
      | EmptyString => if in_cutset cutset a then EmptyString else String a EmptyString
      | t => String a t
      end
  end.

(** [strings.Trim(s, cutset)]: all leading and trailing bytes contained in
    [cutset] removed. *)
Definition Trim (s cutset : string) : string :=
  TrimRight (TrimLeft s cutset) cutset.

End GoStrings.

Import GoStrings.

(** ** [encoding/hex] and [strconv] *)

(** A Go [byte] is an 8-bit value: [ascii], read as a number by
    [N_of_ascii]; [ascii_of_N] keeps the low 8 bits. *)
Definition byte : Type := ascii.

Definition byte_or (a : byte) (m : N) : byte := ascii_of_N (N.lor (N_of_ascii a) m).
Definition byte_and (a : byte) (m : N) : byte := ascii_of_N (N.land (N_of_ascii a) m).

Definition hextable : string := "0123456789abcdef".

Definition hexdigit (n : N) : ascii :=
  default "0"%char (String.get (N.to_nat n) hextable).

(** [hex.EncodeToString]: two digits per byte, [hextable[v>>4]] then
    [hextable[v&0x0f]]. *)
Fixpoint EncodeToString (src : list byte) : string :=
  match src with
  | [] => EmptyString
  | v :: src' =>
      String (hexdigit (N.shiftr (N_of_ascii v) 4))
        (String (hexdigit (N.land (N_of_ascii v) 15)) (EncodeToString src'))
  end.

(** [strconv.FormatInt(i, 10)]. *)
Definition FormatInt (i : Z) : string := NilZero.string_of_int (Z.to_int i).

(** ** Data model *)

(** A Go [error] value, identified with its message. *)
Definition error := string.

Record Config := {
  MeasurementID : string;
  APISecret : string
}.

(** [GA4Event]: [Params] is a [map[string]interface{}] whose values are all
    strings in this program. *)
Record GA4Event := {
  Name : string;
  Params : gmap string string
}.

Record GA4Payload := {
  ClientID : string;
  Events : list GA4Event
}.

Record Cookie := {
  cookie_Name : string;
  cookie_Value : string;
  cookie_Path : string
}.

(** What the handler reads of an [*http.Request]. [URL_Query] is the value
    of [url.ParseQuery(r.URL.RawQuery)] (its error is dropped by the
    handler); [Cookie_cid] is [r.Cookie("cid")], [None] standing for
    [http.ErrNoCookie]; a header that is absent reads as the empty string,
    as [Header.Get] has it. *)
Record Request := {
  Method : string;
  URL_Path : string;
  URL_Query : gmap string (list string);
  Header_Referer : string;
  Header_UserAgent : string;
  RemoteAddr : string;
  Cookie_cid : option string
}.

(** The outbound request built by [sendToGA]. *)
Record OutRequest := {
  out_Method : string;
  out_URL : string;
  out_Header : list (string * string);
  out_Body : string
}.

Inductive Layout := RFC3339 | TimeFormat.

(** A [time.Time], by the two observations the program makes of it. *)
Record Time := {
  Unix : Z;
  Format : Layout → string
}.

Record Assets := {
  pixel : string;
  badge : string;
  badgeGif : string;
  badgeFlat : string;
  badgeFlatGif : string
}.

(** Everything outside the program that a request depends on: the
    configuration and the static files loaded at start-up, the clock (the
    value of the n-th call of [time.Now]), the entropy source behind
    [rand.Read], [json.Marshal], [url.Parse] (the errors it has for an
    address without control characters), the HTTP client and the page
    template (the chunks it writes, one [Write] per node of the template,
    and its error, if any). *)
Record World := {
  config : Config;
  assets : Assets;
  Now : nat → Time;
  rand_err : option error;
  rand_bytes : nat → byte;
  json_Marshal : GA4Payload → string + error;
  url_Parse : string → option error;
  client_Do : OutRequest → string + error;
  ExecuteTemplate : string → string → list string * option error
}.

(** One line per [log.Printf] call site of the program; what the library
    logs on its own is not kept. *)
Inductive LogLine :=
  | LogMarshalError (err : error)
  | LogPostError (err : error)
  | LogStatus (status cid ip : string)
  | LogPayload (json : string)
  | LogUUIDFailed (err : error)
  | LogUUIDGenerated (cid : string)
  | LogExistingCID (cid : string)
  | LogTemplateError (err : error).

(** The status line and headers, fixed when the first byte of the response
    is written. *)
Record ResponseHead := {
  Status : Z;
  SentHeader : gmap string string;
  SentCookies : list Cookie
}.

(** The effects of one request: clock reads, log lines, the payloads handed
    to [sendToGA], the requests handed to the HTTP client, and the
    [http.ResponseWriter] ([st_header] is [w.Header()], with its
    [Set-Cookie] lines kept apart in [st_cookies]). Lists grow at the end. *)
Record State := {
  st_now_calls : nat;
  st_log : list LogLine;
  st_payloads : list GA4Payload;
  st_posts : list OutRequest;
  st_header : gmap string string;
  st_cookies : list Cookie;
  st_head : option ResponseHead;
  st_body : list string
}.

Definition initial : State :=
  {| st_now_calls := 0%nat; st_log := []; st_payloads := []; st_posts := [];
     st_header := ∅; st_cookies := []; st_head := None; st_body := [] |}.

Definition with_now_calls (n : nat) (s : State) : State :=
  {| st_now_calls := n; st_log := st_log s; st_payloads := st_payloads s;
     st_posts := st_posts s; st_header := st_header s;
     st_cookies := st_cookies s; st_head := st_head s; st_body := st_body s |}.

Definition with_log (l : list LogLine) (s : State) : State :=
  {| st_now_calls := st_now_calls s; st_log := l; st_payloads := st_payloads s;
     st_posts := st_posts s; st_header := st_header s;
     st_cookies := st_cookies s; st_head := st_head s; st_body := st_body s |}.

Definition with_payloads (l : list GA4Payload) (s : State) : State :=
  {| st_now_calls := st_now_calls s; st_log := st_log s; st_payloads := l;
     st_posts := st_posts s; st_header := st_header s;
     st_cookies := st_cookies s; st_head := st_head s; st_body := st_body s |}.

Definition with_posts (l : list OutRequest) (s : State) : State :=
  {| st_now_calls := st_now_calls s; st_log := st_log s;
     st_payloads := st_payloads s; st_posts := l; st_header := st_header s;
     st_cookies := st_cookies s; st_head := st_head s; st_body := st_body s |}.

Definition with_header (h : gmap string string) (s : State) : State :=
  {| st_now_calls := st_now_calls s; st_log := st_log s;
     st_payloads := st_payloads s; st_posts := st_posts s; st_header := h;
     st_cookies := st_cookies s; st_head := st_head s; st_body := st_body s |}.

Definition with_cookies (l : list Cookie) (s : State) : State :=
  {| st_now_calls := st_now_calls s; st_log := st_log s;
     st_payloads := st_payloads s; st_posts := st_posts s;
     st_header := st_header s; st_cookies := l; st_head := st_head s;
     st_body := st_body s |}.

Definition with_head (h : option ResponseHead) (s : State) : State :=
  {| st_now_calls := st_now_calls s; st_log := st_log s;
     st_payloads := st_payloads s; st_posts := st_posts s;
     st_header := st_header s; st_cookies := st_cookies s; st_head := h;
     st_body := st_body s |}.

Definition with_body (l : list string) (s : State) : State :=
  {| st_now_calls := st_now_calls s; st_log := st_log s;
     st_payloads := st_payloads s; st_posts := st_posts s;
     st_header := st_header s; st_cookies := st_cookies s;
     st_head := st_head s; st_body := l |}.

(** ** The effects, as a state monad with panics

    A computation returns a value or panics ([None]), and leaves a state
    either way; a panic skips what follows. The server recovers a panic
    of the handler and closes the connection: what the handler had not
    written by then is never sent. *)
Definition M (A : Type) : Type := State → option A * State.

Global Instance M_ret : MRet M := λ A a s, (Some a, s).
Global Instance M_bind : MBind M := λ A B f m s,
  let (a, s') := m s in
  match a with
  | Some a => f a s'
  | None => (None, s')
  end.

Definition panic {A : Type} : M A := λ s, (None, s).

Definition modify (f : State → State) : M unit := λ s, (Some tt, f s).

Definition Printf (l : LogLine) : M unit :=
  modify (λ s, with_log (st_log s ++ [l]) s).

(** [textproto.CanonicalMIMEHeaderKey]: a key made of header field bytes
    gets an upper-case letter first and after each hyphen and lower-case
    letters elsewhere; any other key is left as it is. *)
Definition is_lower (c : ascii) : bool :=
  (97 <=? N_of_ascii c)%N && (N_of_ascii c <=? 122)%N.

Definition is_upper (c : ascii) : bool :=
  (65 <=? N_of_ascii c)%N && (N_of_ascii c <=? 90)%N.

Definition is_digit (c : ascii) : bool :=
  (48 <=? N_of_ascii c)%N && (N_of_ascii c <=? 57)%N.

Definition validHeaderFieldByte (c : ascii) : bool :=
  is_lower c || is_upper c || is_digit c || in_cutset "!#$%&'*+-.^_`|~" c.

Fixpoint all_header_field_bytes (s : string) : bool :=
  match s with
  | EmptyString => true
  | String c s' => validHeaderFieldByte c && all_header_field_bytes s'
  end.

Fixpoint canonical_from (upper : bool) (s : string) : string :=
  match s with
  | EmptyString => EmptyString
  | String c s' =>
      let c :=
        if upper && is_lower c then ascii_of_N (N_of_ascii c - 32)
        else if negb upper && is_upper c then ascii_of_N (N_of_ascii c + 32)
        else c in
      String c (canonical_from (bool_decide (c = "-"%char)) s')
  end.

Definition CanonicalMIMEHeaderKey (s : string) : string :=
  if all_header_field_bytes s then canonical_from true s else s.

(** [w.Header().Set(key, value)] *)
Definition Header_Set (key value : string) : M unit :=
  modify (λ s,
    with_header (<[CanonicalMIMEHeaderKey key := value]> (st_header s)) s).

(** [w.Header().Del(key)] *)
Definition Header_Del (key : string) : M unit :=
  modify (λ s, with_header (delete (CanonicalMIMEHeaderKey key) (st_header s)) s).

(** [_, ok := w.Header()[key]] *)
Definition Header_has (key : string) : M bool := λ s,
  (Some (bool_decide (is_Some (st_header s !! key))), s).

Definition newline : string := String "010"%char EmptyString.
Definition dquote : string := String "034"%char EmptyString.

(** The bytes of [s] that are [valid] ([sanitizeOrWarn], which drops the
    others). *)
Fixpoint keep_bytes (valid : ascii → bool) (s : string) : string :=
  match s with
  | EmptyString => EmptyString
  | String b s' =>
      if valid b then String b (keep_bytes valid s') else keep_bytes valid s'
  end.

Definition validCookiePathByte (b : ascii) : bool :=
  (0x20 <=? N_of_ascii b)%N && (N_of_ascii b <? 0x7f)%N
  && negb (bool_decide (b = ";"%char)).

Definition validCookieValueByte (b : ascii) : bool :=
  (0x20 <=? N_of_ascii b)%N && (N_of_ascii b <? 0x7f)%N
  && negb (bool_decide (b = "034"%char))
  && negb (bool_decide (b = ";"%char))
  && negb (bool_decide (b = "\"%char)).

Definition sanitizeCookiePath (v : string) : string :=
  keep_bytes validCookiePathByte v.

Fixpoint ContainsAny (s chars : string) : bool :=
  match s with
  | EmptyString => false
  | String b s' => in_cutset chars b || ContainsAny s' chars
  end.

(** [sanitizeCookieValue] for a cookie that does not ask for quotes. *)
Definition sanitizeCookieValue (v : string) : string :=
  let v := keep_bytes validCookieValueByte v in
  if decide (String.length v = 0%nat) then v
  else if ContainsAny v " ," then dquote +:+ v +:+ dquote
  else v.

Definition isCookieNameValid (raw : string) : bool :=
  negb (bool_decide (raw = "")) && all_header_field_bytes raw.

(** [http.SetCookie(w, cookie)]: the [Set-Cookie] line is made of the name,
    the sanitized value and, for a path that is not empty, the sanitized
    path; a cookie whose name is not a token adds no line. [st_cookies]
    holds the lines as they are added. *)
Definition SetCookie (c : Cookie) : M unit :=
  if isCookieNameValid (cookie_Name c) then
    modify (λ s,
      with_cookies
        (st_cookies s ++ [{| cookie_Name := cookie_Name c;
                             cookie_Value := sanitizeCookieValue (cookie_Value c);
                             cookie_Path := sanitizeCookiePath (cookie_Path c) |}])
        s)
  else mret tt.

(** [w.WriteHeader(code)]: the first call fixes status and headers, a later
    one changes nothing. *)
Definition WriteHeader (code : Z) : M unit :=
  modify (λ s,
    match st_head s with
    | Some _ => s
    | None => with_head (Some {| Status := code; SentHeader := st_header s;
                                 SentCookies := st_cookies s |}) s
    end).

(** [w.Write(data)], with its implicit [WriteHeader(http.StatusOK)]. *)
Definition Write (data : string) : M unit :=
  WriteHeader 200 ;;
  modify (λ s, with_body (st_body s ++ [data]) s).

(** Each chunk of an output written in pieces, in order. *)
Fixpoint Write_all (chunks : list string) : M unit :=
  match chunks with
  | [] => mret tt
  | data :: chunks' => Write data ;; Write_all chunks'
  end.

(** [http.StatusText], for the one code the handler redirects with. *)
Definition StatusText (code : Z) : string :=
  if decide (code = 302) then "Found" else "".

(** [http.Redirect(w, r, url, code)] for an absolute [url] without
    characters that need escaping. *)
Definition Redirect (method url : string) (code : Z) : M unit :=
  hadCT ← Header_has "Content-Type";
  Header_Set "Location" url ;;
  (if negb hadCT && (bool_decide (method = "GET") || bool_decide (method = "HEAD"))
   then Header_Set "Content-Type" "text/html; charset=utf-8" else mret tt) ;;
  WriteHeader code ;;
  if negb hadCT && bool_decide (method = "GET")
  then Write ("<a href=" +:+ dquote +:+ url +:+ dquote +:+ ">" +:+ StatusText code
              +:+ "</a>." +:+ newline +:+ newline)
  else mret tt.

(** [http.Error(w, error, code)] *)
Definition http_Error (msg : string) (code : Z) : M unit :=
  Header_Del "Content-Length" ;;
  Header_Set "Content-Type" "text/plain; charset=utf-8" ;;
  Header_Set "X-Content-Type-Options" "nosniff" ;;
  WriteHeader code ;;
  Write (msg +:+ newline).

Global Instance ascii_inhabited : Inhabited ascii := populate "000"%char.

(** ** The program *)
Section Beacon.

Variable w : World.

(** [time.Now()]: the next reading of the clock. *)
Definition time_Now : M Time := λ s,
  (Some (Now w (st_now_calls s)), with_now_calls (S (st_now_calls s)) s).

(** [rand.Read(b)]: fills [b] or fails. *)
Definition rand_Read (b : list ascii) : list ascii * option error :=
  match rand_err w with
  | Some err => (b, Some err)
  | None => (imap (λ i _, rand_bytes w i) b, None)
  end.

(** [client.Do(req)]: the request goes out, a status or an error comes
    back. *)
Definition Do (req : OutRequest) : M (string + error) := λ s,
  (Some (client_Do w req), with_posts (st_posts s ++ [req]) s).

(** [generateUUID(cid *string) error]: the string [cid] points to, before
    and after, and the error. *)
Definition generateUUID (cid : string) : string * option error :=
  let b := replicate 16 "000"%char in
  let (b, err) := rand_Read b in
  match err with
  | Some err => (cid, Some err)
  | None =>
      let b := <[8%nat := byte_and (byte_or (b !!! 8%nat) 0x80) 0xBF]> b in
      let b := <[6%nat := byte_and (byte_or (b !!! 6%nat) 0x40) 0x4F]> b in
      (EncodeToString b, None)
  end.

Definition generateSessionID : M string :=
  now ← time_Now;
  mret (FormatInt (Unix now)).

(** [stringContainsCTLByte] of [net/url]: a byte below 0x20, or 0x7f. *)
Fixpoint stringContainsCTLByte (s : string) : bool :=
  match s with
  | EmptyString => false
  | String b s' =>
      (N_of_ascii b <? 0x20)%N || (N_of_ascii b =? 0x7f)%N
      || stringContainsCTLByte s'
  end.

(** The error of [url.Parse(url)], by the message of its cause: a control
    character before the fragment, or what else the parser has against the
    address. *)
Definition url_Parse_error (url : string) : option error :=
  let u := match Cut url "#" with Some (u, _) => u | None => url end in
  if stringContainsCTLByte u
  then Some "net/url: invalid control character in URL"
  else url_Parse w url.

(** [http.NewRequest(method, url, body)] for a valid method: it fails when
    [url.Parse] does. *)
Definition http_NewRequest (method url body : string) : OutRequest + error :=
  match url_Parse_error url with
  | Some err => inr err
  | None =>
      inl {| out_Method := method; out_URL := url; out_Header := [];
             out_Body := body |}
  end.

(** [req.Header.Add(key, value)] *)
Definition req_Header_Add (req : OutRequest) (key value : string) : OutRequest :=
  {| out_Method := out_Method req; out_URL := out_URL req;
     out_Header := out_Header req ++ [(CanonicalMIMEHeaderKey key, value)];
     out_Body := out_Body req |}.

(** The address [sendToGA] posts to (line 132). *)
Definition beaconURL : string :=
  "https://www.google-analytics.com/mp/collect?measurement_id="
  +:+ MeasurementID (config w) +:+ "&api_secret=" +:+ APISecret (config w).

(** The request [sendToGA] hands to the HTTP client when [http.NewRequest]
    has built it (lines 132-138). *)
Definition beacon_request (ua jsonPayload : string) : OutRequest :=
  {| out_Method := "POST"; out_URL := beaconURL;
     out_Header := [("User-Agent", ua); ("Content-Type", "application/json")];
     out_Body := jsonPayload |}.

(** [sendToGA]; its first step records the payload it was handed, which
    the program itself does not keep. The error of [http.NewRequest] is
    dropped (line 134): when there is one the request is [nil], and
    [req.Header.Add] panics on it. *)
Definition sendToGA (ua ip cid : string) (payload : GA4Payload) : M (option error) :=
  modify (λ s, with_payloads (st_payloads s ++ [payload]) s) ;;
  match json_Marshal w payload with
  | inr err =>
      Printf (LogMarshalError err) ;;
      mret (Some err)
  | inl jsonPayload =>
      match http_NewRequest "POST" beaconURL jsonPayload with
      | inr _ => panic
      | inl req =>
          let req := req_Header_Add req "User-Agent" ua in
          let req := req_Header_Add req "Content-Type" "application/json" in
          resp ← Do req;
          match resp with
          | inr err =>
              Printf (LogPostError err) ;;
              mret (Some err)
          | inl status =>
              Printf (LogStatus status cid ip) ;;
              Printf (LogPayload jsonPayload) ;;
              mret None
          end
      end
  end.

Definition reserved : list string :=
  ["referer"; "pixel"; "gif"; "flat"; "flat-gif"; "useReferer"].

Fixpoint is_among (rs : list string) (param : string) : bool :=
  match rs with
  | [] => false
  | r :: rs' => if decide (param = r) then true else is_among rs' param
  end.

Definition isReservedParam (param : string) : bool := is_among reserved param.

(** One turn of the loop over [query] in [logHit]. *)
Definition add_custom (params : gmap string string) (entry : string * list string)
  : gmap string string :=
  let (key, values) := entry in
  if bool_decide (0 < length values)%nat && negb (isReservedParam key)
  then <["custom_" +:+ key := values !!! 0%nat]> params
  else params.

(** [for key, values := range query]: Go visits the entries of a map in an
    unspecified order, here the one of the list [entries]. *)
Definition range_query (entries : list (string * list string))
    (params : gmap string string) : gmap string string :=
  foldl add_custom params entries.

(** The event [logHit] builds (lines 153-168). *)
Definition page_view_event (session_id timestamp : string)
    (query : gmap string (list string)) (ua ip : string) : GA4Event :=
  {| Name := "page_view";
     Params := range_query (map_to_list query)
                 (<["session_id" := session_id]>
                  (<["user_agent" := ua]>
                   (<["ip_address" := ip]>
                    (<["timestamp" := timestamp]> ∅)))) |}.

Definition logHit (params : list string) (query : gmap string (list string))
    (ua ip cid : string) : M (option error) :=
  session_id ← generateSessionID;
  now ← time_Now;
  let event := page_view_event session_id (Format now RFC3339) query ua ip in
  let payload := {| ClientID := cid; Events := [event] |} in
  sendToGA ua ip cid payload.

(** The value of [params] after the [useReferer] block of [handler]
    (lines 206-216). *)
Definition useReferer_params (r : Request) (query : gmap string (list string))
    (params : list string) : list string :=
  let refOrg := Header_Referer r in
  if decide (is_Some (query !! "useReferer")) then
    if decide (String.length refOrg ≠ 0%nat) then
      let referer := Replace (Replace refOrg "http://" "" 1) "https://" "" 1 in
      if decide (String.length referer ≠ 0%nat) then
        SplitN (Trim (URL_Path r) "/" +:+ "/" +:+ referer) "/" 2
      else params
    else params
  else params.

(** [/account]: the account page (lines 218-232). The template writes
    its output to the response chunk by chunk. *)
Definition account_page (account referer : string) : M unit :=
  let (chunks, err) := ExecuteTemplate w account referer in
  Write_all chunks ;;
  match err with
  | Some err =>
      http_Error "could not show account page" 500 ;;
      Printf (LogTemplateError err)
  | None => mret tt
  end.

(** The client identity: the [cid] cookie, or a new one (lines 235-246). *)
Definition client_identity (r : Request) (params : list string) : M string :=
  let cid := "" in
  match Cookie_cid r with
  | None =>
      let (cid, err) := generateUUID cid in
      match err with
      | Some err =>
          Printf (LogUUIDFailed err) ;;
          mret cid
      | None =>
          Printf (LogUUIDGenerated cid) ;;
          SetCookie {| cookie_Name := "cid"; cookie_Value := cid;
                       cookie_Path := "/" +:+ params !!! 0%nat |} ;;
          mret cid
      end
  | Some value =>
      let cid := value in
      Printf (LogExistingCID cid) ;;
      mret cid
  end.

(** The tracked part of a request (lines 248-256); the error [logHit]
    returns is dropped. *)
Definition track (r : Request) (params : list string)
    (query : gmap string (list string)) (cid : string) : M unit :=
  now ← time_Now;
  let cacheUntil := Format now TimeFormat in
  Header_Set "Cache-Control" "no-cache, no-store, must-revalidate, private" ;;
  Header_Set "Expires" cacheUntil ;;
  Header_Set "CID" cid ;;
  logHit params query (Header_UserAgent r) (RemoteAddr r) cid ;;
  mret tt.

(** The pixel or badge (lines 258-274). *)
Definition write_image (query : gmap string (list string)) : M unit :=
  if decide (is_Some (query !! "pixel")) then
    Header_Set "Content-Type" "image/gif" ;;
    Write (pixel (assets w))
  else if decide (is_Some (query !! "gif")) then
    Header_Set "Content-Type" "image/gif" ;;
    Write (badgeGif (assets w))
  else if decide (is_Some (query !! "flat")) then
    Header_Set "Content-Type" "image/svg+xml" ;;
    Write (badgeFlat (assets w))
  else if decide (is_Some (query !! "flat-gif")) then
    Header_Set "Content-Type" "image/gif" ;;
    Write (badgeFlatGif (assets w))
  else
    Header_Set "Content-Type" "image/svg+xml" ;;
    Write (badge (assets w)).

(** [query] after the referer has been added to it (lines 192-198). *)
Definition handler_query (r : Request) : gmap string (list string) :=
  let query := URL_Query r in
  let refOrg := Header_Referer r in
  if decide (refOrg ≠ "") then <["referer" := [refOrg]]> query else query.

Definition handler (r : Request) : M unit :=
  let params := SplitN (Trim (URL_Path r) "/") "/" 2 in
  let query := handler_query r in
  let refOrg := Header_Referer r in
  if decide (String.length (params !!! 0%nat) = 0%nat) then
    Redirect (Method r) "https://github.com/igrigorik/ga-beacon" 302
  else
    let params := useReferer_params r query params in
    if decide (length params = 1%nat) then
      account_page (params !!! 0%nat) refOrg
    else
      cid ← client_identity r params;
      (if decide (String.length cid ≠ 0%nat)
       then track r params query cid else mret tt) ;;
      write_image query.

(** The effects of serving [r], from a fresh response writer. *)
Definition serve (r : Request) : State := (handler r initial).2.

(** The handler returns from [r]: it does not panic. *)
Definition returns (r : Request) : Prop := (handler r initial).1 = Some tt.

End Beacon.

(** [params] as first computed from the path (line 191), and as it stands
    after the [useReferer] block (line 217). *)
Definition path_segments (r : Request) : list string :=
  SplitN (Trim (URL_Path r) "/") "/" 2.

Definition handler_params (r : Request) : list string :=
  useReferer_params r (handler_query r) (path_segments r).

(** The local [referer] of the [useReferer] block (line 209). *)
Definition stripped_referer (r : Request) : string :=
  Replace (Replace (Header_Referer r) "http://" "" 1) "https://" "" 1.

(** The requests that reach the last branch of [handler]: the path is not
    the root and [params], after the [useReferer] block, has two segments. *)
Definition tracked_request (r : Request) : Prop :=
  Trim (URL_Path r) "/" ≠ "" ∧ length (handler_params r) = 2%nat.

(** The image the specification selects: the first of [pixel], [gif],
    [flat], [flat-gif] among the query keys, the badge when there is none;
    its content type and its bytes. *)
Definition selected_image (a : Assets) (query : gmap string (list string))
  : string * string :=
  if decide (is_Some (query !! "pixel")) then ("image/gif", pixel a)
  else if decide (is_Some (query !! "gif")) then ("image/gif", badgeGif a)
  else if decide (is_Some (query !! "flat")) then ("image/svg+xml", badgeFlat a)
  else if decide (is_Some (query !! "flat-gif")) then ("image/gif", badgeFlatGif a)
  else ("image/svg+xml", badge a).

(** The sixteen bytes [generateUUID] encodes when the entropy source
    delivers (lines 104-111). *)
Definition uuid_bytes (w : World) : list ascii :=
  let b := imap (λ i _, rand_bytes w i) (replicate 16 "000"%char) in
  let b := <[8%nat := byte_and (byte_or (b !!! 8%nat) 0x80) 0xBF]> b in
  <[6%nat := byte_and (byte_or (b !!! 6%nat) 0x40) 0x4F]> b.

(** The parameters every event starts from (lines 155-160). *)
Definition base_params (session_id timestamp ua ip : string) : gmap string string :=
  <["session_id" := session_id]>
    (<["user_agent" := ua]> (<["ip_address" := ip]> (<["timestamp" := timestamp]> ∅))).

(** The payload [logHit] hands to [sendToGA] when the clock has been read
    [n] times before: the next reading is the session, the one after it
    the timestamp. *)
Definition logHit_payload (w : World) (query : gmap string (list string))
    (ua ip cid : string) (n : nat) : GA4Payload :=
  {| ClientID := cid;
     Events := [page_view_event (FormatInt (Unix (Now w n)))
                  (Format (Now w (S n)) RFC3339) query ua ip] |}.

(** The payload of a tracked request whose handler had read the clock [n]
    times before it came to [track], which reads it once for [Expires]. *)
Definition tracked_payload (w : World) (r : Request) (cid : string) (n : nat)
  : GA4Payload :=
  logHit_payload w (handler_query r) (Header_UserAgent r) (RemoteAddr r) cid (S n).

(** The headers [track] sets; [CID] is stored under its canonical form. *)
Definition tracking_headers (w : World) (cid : string) (n : nat)
    (h : gmap string string) : gmap string string :=
  <["Cid" := cid]>
    (<["Expires" := Format (Now w n) TimeFormat]>
       (<["Cache-Control" := "no-cache, no-store, must-revalidate, private"]> h)).

(** The request to the collect address can be built: [url.Parse] has
    nothing against the address made from the configuration. *)
Definition request_builds (w : World) : Prop :=
  url_Parse_error w (beaconURL w) = None.

(** The outcome of a delivery once the request is built: the error of
    [json.Marshal], else the error of the POST, else none. *)
Definition delivery_error (w : World) (ua : string) (payload : GA4Payload)
  : option error :=
  match json_Marshal w payload with
  | inr err => Some err
  | inl jsonPayload =>
      match client_Do w (beacon_request w ua jsonPayload) with
      | inr err => Some err
      | inl _ => None
      end
  end.

(** What [sendToGA] returns for one payload: [None] when it panics, which
    it does when the payload is serialized and the request cannot be
    built. *)
Definition delivery_result (w : World) (ua : string) (payload : GA4Payload)
  : option (option error) :=
  match json_Marshal w payload with
  | inr err => Some (Some err)
  | inl jsonPayload =>
      match url_Parse_error w (beaconURL w) with
      | Some _ => None
      | None =>
          match client_Do w (beacon_request w ua jsonPayload) with
          | inr err => Some (Some err)
          | inl _ => Some None
          end
      end
  end.

(** The requests [sendToGA] hands to the HTTP client for one payload, and
    the lines it logs. *)
Definition delivery_posts (w : World) (ua : string) (payload : GA4Payload)
  : list OutRequest :=
  match json_Marshal w payload with
  | inr _ => []
  | inl jsonPayload =>
      match url_Parse_error w (beaconURL w) with
      | Some _ => []
      | None => [beacon_request w ua jsonPayload]
      end
  end.

Definition delivery_log (w : World) (ua ip cid : string) (payload : GA4Payload)
  : list LogLine :=
  match json_Marshal w payload with
  | inr err => [LogMarshalError err]
  | inl jsonPayload =>
      match url_Parse_error w (beaconURL w) with
      | Some _ => []
      | None =>
          match client_Do w (beacon_request w ua jsonPayload) with
          | inr err => [LogPostError err]
          | inl status => [LogStatus status cid ip; LogPayload jsonPayload]
          end
      end
  end.

(** The world [w] with another serializer and another HTTP client. *)
Definition with_delivery (w : World)
    (marshal : GA4Payload → string + error)
    (do : OutRequest → string + error) : World :=
  {| config := config w; assets := assets w; Now := Now w;
     rand_err := rand_err w; rand_bytes := rand_bytes w;
     json_Marshal := marshal; url_Parse := url_Parse w; client_Do := do;
     ExecuteTemplate := ExecuteTemplate w |}.

(** What the client receives when the handler returns: status line,
    headers and cookies, body. A handler that panics before its first
    write leaves both empty, and the client receives nothing. *)
Definition response (s : State) : option ResponseHead * list string :=
  (st_head s, st_body s).

Definition lower_hex_digit (a : ascii) : bool := in_cutset hextable a.

Fixpoint all_lower_hex (s : string) : bool :=
  match s with
  | EmptyString => true
  | String a s' => lower_hex_digit a && all_lower_hex s'
  end.

(** ** The specification's reading of the referer rewrite

    The specification speaks of stripping the scheme prefix of the referer
    and of the page segment becoming the stripped value; these two
    definitions follow its words, to be compared with [stripped_referer]
    and [handler_params]. *)
Definition strip_scheme_prefix (referer : string) : string :=
  match after_prefix "http://" referer with
  | Some rest => rest
  | None =>
      match after_prefix "https://" referer with
      | Some rest => rest
      | None => referer
      end
  end.

Definition page_is_stripped_referer (r : Request) : Prop :=
  is_Some (URL_Query r !! "useReferer") →
  Header_Referer r ≠ "" →
  strip_scheme_prefix (Header_Referer r) ≠ "" →
  handler_params r !! 1%nat = Some (strip_scheme_prefix (Header_Referer r)).

(** The specification's words on a request without a [cid] cookie: a new
    identity of 32 lowercase hexadecimal digits is generated, set as cookie
    with the account as its path, and carried by the payload. *)
Definition new_identity_without_cookie (w : World) (r : Request)
    (account : string) : Prop :=
  Cookie_cid r = None →
  ∃ cid,
    String.length cid = 32%nat ∧
    all_lower_hex cid = true ∧
    st_cookies (serve w r) =
      [{| cookie_Name := "cid"; cookie_Value := cid;
          cookie_Path := "/" +:+ account |}] ∧
    ∃ payload, payload ∈ st_payloads (serve w r) ∧ ClientID payload = cid.

(** ** Sample worlds and requests *)
Definition sample_time : Time :=
  {| Unix := 1761868800;
     Format := λ layout,
       match layout with
       | RFC3339 => "2025-10-31T00:00:00Z"
       | TimeFormat => "Fri, 31 Oct 2025 00:00:00 GMT"
       end |}.

Definition sample_world : World :=
  {| config := {| MeasurementID := "G-TEST"; APISecret := "secret" |};
     assets := {| pixel := "GIF89a-pixel"; badge := "<svg>badge</svg>";
                  badgeGif := "GIF89a-badge"; badgeFlat := "<svg>flat</svg>";
                  badgeFlatGif := "GIF89a-flat" |};
     Now := λ _, sample_time;
     rand_err := None;
     rand_bytes := λ i, ascii_of_nat (17 * i + 200);
     json_Marshal := λ payload, inl ("{client_id:" +:+ ClientID payload +:+ "}");
     url_Parse := λ _, None;
     client_Do := λ _, inl "204 No Content";
     ExecuteTemplate := λ account referer, (["<html>"; account; "</html>"], None) |}.

(** The same world with an entropy source that fails. *)
Definition no_entropy_world : World :=
  {| config := config sample_world; assets := assets sample_world;
     Now := Now sample_world;
     rand_err := Some "entropy source unavailable";
     rand_bytes := rand_bytes sample_world;
     json_Marshal := json_Marshal sample_world;
     url_Parse := url_Parse sample_world;
     client_Do := client_Do sample_world;
     ExecuteTemplate := ExecuteTemplate sample_world |}.

(** The same world with an analytics endpoint that cannot be reached. *)
Definition offline_world : World :=
  {| config := config sample_world; assets := assets sample_world;
     Now := Now sample_world;
     rand_err := rand_err sample_world;
     rand_bytes := rand_bytes sample_world;
     json_Marshal := json_Marshal sample_world;
     url_Parse := url_Parse sample_world;
     client_Do := λ _, inr "dial tcp: connection refused";
     ExecuteTemplate := ExecuteTemplate sample_world |}.

(** [GET /octocat/readme?pixel], no cookie, no referer. *)
Definition pixel_request : Request :=
  {| Method := "GET"; URL_Path := "/octocat/readme";
     URL_Query := {[ "pixel" := [""] ]};
     Header_Referer := ""; Header_UserAgent := "Mozilla/5.0";
     RemoteAddr := "203.0.113.7:4711"; Cookie_cid := None |}.

(** [GET /octocat/readme?flat&src=newsletter] with a [cid] cookie. *)
Definition flat_request : Request :=
  {| Method := "GET"; URL_Path := "/octocat/readme";
     URL_Query := {[ "flat" := [""]; "src" := ["newsletter"; "mail"] ]};
     Header_Referer := ""; Header_UserAgent := "Mozilla/5.0";
     RemoteAddr := "203.0.113.7:4711";
     Cookie_cid := Some "0123456789abcdef0123456789abcdef" |}.

(** [GET /], the root path. *)
Definition root_request : Request :=
  {| Method := "GET"; URL_Path := "/"; URL_Query := ∅;
     Header_Referer := ""; Header_UserAgent := "Mozilla/5.0";
     RemoteAddr := "203.0.113.7:4711"; Cookie_cid := None |}.

(** [GET /octocat/readme?pixel&useReferer] sent from
    [https://example.com/page]: a path of two segments. *)
Definition referer_request : Request :=
  {| Method := "GET"; URL_Path := "/octocat/readme";
     URL_Query := {[ "pixel" := [""]; "useReferer" := [""] ]};
     Header_Referer := "https://example.com/page";
     Header_UserAgent := "Mozilla/5.0";
     RemoteAddr := "203.0.113.7:4711"; Cookie_cid := None |}.

(** [GET /octocat?useReferer] sent from a page whose address carries a
    second address in its query: a path of one segment. *)
Definition nested_referer_request : Request :=
  {| Method := "GET"; URL_Path := "/octocat";
     URL_Query := {[ "useReferer" := [""] ]};
     Header_Referer := "https://search.example/url?q=http://example.com/";
     Header_UserAgent := "Mozilla/5.0";
     RemoteAddr := "203.0.113.7:4711"; Cookie_cid := None |}.

(** [GET /octocat], the account page. *)
Definition account_request : Request :=
  {| Method := "GET"; URL_Path := "/octocat"; URL_Query := ∅;
     Header_Referer := ""; Header_UserAgent := "Mozilla/5.0";
     RemoteAddr := "203.0.113.7:4711"; Cookie_cid := None |}.

(** The payload and the event of [flat_request] in [sample_world]. *)
Definition flat_payload : GA4Payload :=
  tracked_payload sample_world flat_request "0123456789abcdef0123456789abcdef" 0.


(** ** Start-up: [loadConfig] and [main] *)

(** What the process reads of its host: [os.Getenv] (an unset variable
    reads as the empty string), [ioutil.ReadFile], [json.Unmarshal] into
    the configuration (the configuration it leaves behind and its error),
    and [http.ListenAndServe], which returns an error when it returns at
    all. *)
Record Host := {
  Getenv : string → string;
  ReadFile : string → string + error;
  json_Unmarshal : string → Config → Config * option error;
  ListenAndServe : string → option error
}.

(** One line per [log] call site of [loadConfig] and [main]. *)
Inductive StartLog :=
  | LogLoadedConfig (measurementID : string)
  | LogDefaultPort (port : string)
  | LogListening (port : string)
  | LogFatal (err : error).

(** The file [loadConfig] reads (lines 53-56). *)
Definition config_file (h : Host) : string :=
  let configFile := "config.json" in
  let envConfig := Getenv h "CONFIG_FILE" in
  if decide (envConfig ≠ "") then envConfig else configFile.

(** [loadConfig]: the global [config] before and after, the lines logged,
    and the error. *)
Definition loadConfig (h : Host) (config : Config)
  : Config * list StartLog * option error :=
  let configFile := config_file h in
  match ReadFile h configFile with
  | inr err =>
      (config, [],
       Some ("failed to read config file " +:+ configFile +:+ ": " +:+ err))
  | inl data =>
      let (config, err) := json_Unmarshal h data config in
      match err with
      | Some err => (config, [], Some ("failed to parse config file: " +:+ err))
      | None =>
          if decide (MeasurementID config = "" ∨ APISecret config = "")
          then (config, [],
                Some "measurement_id and api_secret are required in config file")
          else (config, [LogLoadedConfig (MeasurementID config)], None)
      end
  end.

(** The course of the process: the configuration, the lines logged, the
    patterns registered with [http.HandleFunc], the address handed to
    [http.ListenAndServe], and the exit code once [log.Fatal] has run. *)
Record Process := {
  proc_config : Config;
  proc_log : list StartLog;
  proc_routes : list string;
  proc_listen : option string;
  proc_exit : option Z
}.

(** [main], from the zero value of [config]. *)
Definition main (h : Host) : Process :=
  let '(config, log, err) :=
    loadConfig h {| MeasurementID := ""; APISecret := "" |} in
  match err with
  | Some err =>
      {| proc_config := config; proc_log := log ++ [LogFatal err];
         proc_routes := []; proc_listen := None; proc_exit := Some 1 |}
  | None =>
      let routes := ["/"] in
      let port := Getenv h "PORT" in
      let (port, log) :=
        if decide (port = "") then ("8080", log ++ [LogDefaultPort "8080"])
        else (port, log) in
      let log := log ++ [LogListening port] in
      match ListenAndServe h (":" +:+ port) with
      | Some err =>
          {| proc_config := config; proc_log := log ++ [LogFatal err];
             proc_routes := routes; proc_listen := Some (":" +:+ port);
             proc_exit := Some 1 |}
      | None =>
          {| proc_config := config; proc_log := log; proc_routes := routes;
             proc_listen := Some (":" +:+ port); proc_exit := None |}
      end
  end.

(** ** Companions of the string functions, for stating round trips *)

(** [strings.Join(elems, sep)] *)
Definition Join (elems : list string) (sep : string) : string :=
  String.concat sep elems.

Fixpoint all_in_cutset (cutset s : string) : bool :=
  match s with
  | EmptyString => true
  | String a s' => in_cutset cutset a && all_in_cutset cutset s'
  end.

Definition first_byte (s : string) : option ascii :=
  match s with
  | EmptyString => None
  | String a _ => Some a
  end.

Fixpoint last_byte (s : string) : option ascii :=
  match s with
  | EmptyString => None
  | String a EmptyString => Some a
  | String _ s' => last_byte s'
  end.

(** [hex.DecodeString] and its [fromHexChar]: [None] stands for
    [hex.ErrLength] and [hex.InvalidByteError]. *)
Definition fromHexChar (c : ascii) : option N :=
  let n := N_of_ascii c in
  if (48 <=? n)%N && (n <=? 57)%N then Some (n - 48)%N
  else if (97 <=? n)%N && (n <=? 102)%N then Some (n - 97 + 10)%N
  else if (65 <=? n)%N && (n <=? 70)%N then Some (n - 65 + 10)%N
  else None.

Fixpoint DecodeString (s : string) : option (list ascii) :=
  match s with
  | EmptyString => Some []
  | String _ EmptyString => None
  | String a (String b s') =>
      match fromHexChar a, fromHexChar b, DecodeString s' with
      | Some x, Some y, Some rest =>
          Some (ascii_of_N (N.lor (N.shiftl x 4) y) :: rest)
      | _, _, _ => None
      end
  end.

(** ** More sample worlds, hosts and requests *)

(** A page template that fails before it writes anything, and one that
    fails after it has written its first bytes. *)
Definition broken_template_world : World :=
  {| config := config sample_world; assets := assets sample_world;
     Now := Now sample_world; rand_err := rand_err sample_world;
     rand_bytes := rand_bytes sample_world;
     json_Marshal := json_Marshal sample_world;
     url_Parse := url_Parse sample_world;
     client_Do := client_Do sample_world;
     ExecuteTemplate := λ account referer, ([], Some "template: no such template") |}.

Definition half_template_world : World :=
  {| config := config sample_world; assets := assets sample_world;
     Now := Now sample_world; rand_err := rand_err sample_world;
     rand_bytes := rand_bytes sample_world;
     json_Marshal := json_Marshal sample_world;
     url_Parse := url_Parse sample_world;
     client_Do := client_Do sample_world;
     ExecuteTemplate := λ account referer,
       (["<html>"; account], Some "template: broken pipe") |}.

(** A configuration whose measurement id ends in a line feed, as a value
    copied with its line end does: the collect address holds a control
    character. *)
Definition control_config_world : World :=
  {| config := {| MeasurementID := "G-TEST" +:+ newline; APISecret := "secret" |};
     assets := assets sample_world;
     Now := Now sample_world; rand_err := rand_err sample_world;
     rand_bytes := rand_bytes sample_world;
     json_Marshal := json_Marshal sample_world;
     url_Parse := url_Parse sample_world;
     client_Do := client_Do sample_world;
     ExecuteTemplate := ExecuteTemplate sample_world |}.

(** [GET /oc;to/readme?pixel], no cookie: an account with a semicolon. *)
Definition semicolon_request : Request :=
  {| Method := "GET"; URL_Path := "/oc;to/readme";
     URL_Query := {[ "pixel" := [""] ]};
     Header_Referer := ""; Header_UserAgent := "Mozilla/5.0";
     RemoteAddr := "203.0.113.7:4711"; Cookie_cid := None |}.

(** [GET /octocat/readme] with the cookie [cid=]. *)
Definition empty_cookie_request : Request :=
  {| Method := "GET"; URL_Path := "/octocat/readme"; URL_Query := ∅;
     Header_Referer := ""; Header_UserAgent := "Mozilla/5.0";
     RemoteAddr := "203.0.113.7:4711"; Cookie_cid := Some "" |}.

(** [GET /octocat?useReferer] sent from [https://example.com/page]. *)
Definition account_referer_request : Request :=
  {| Method := "GET"; URL_Path := "/octocat";
     URL_Query := {[ "useReferer" := [""] ]};
     Header_Referer := "https://example.com/page";
     Header_UserAgent := "Mozilla/5.0";
     RemoteAddr := "203.0.113.7:4711"; Cookie_cid := None |}.

(** The request posted for [pixel_request] in [sample_world]. *)
Definition pixel_post : OutRequest :=
  beacon_request sample_world "Mozilla/5.0"
    "{client_id:c8d9eafb0c1d4e3f9061728394a5b6c7}".

(** A host with a valid [config.json] and no environment, and one whose
    configuration lacks the secret. *)
Definition sample_host : Host :=
  {| Getenv := λ _, "";
     ReadFile := λ path,
       if decide (path = "config.json") then inl "{json}"
       else inr "open: no such file or directory";
     json_Unmarshal := λ data config,
       ({| MeasurementID := "G-TEST"; APISecret := "secret" |}, None);
     ListenAndServe := λ _, None |}.

Definition no_secret_host : Host :=
  {| Getenv := Getenv sample_host; ReadFile := ReadFile sample_host;
     json_Unmarshal := λ data config,
       ({| MeasurementID := "G-TEST"; APISecret := APISecret config |}, None);
     ListenAndServe := ListenAndServe sample_host |}.

(** ** Tactics for running the handler *)

Ltac unfold_ops :=
  unfold track, logHit, sendToGA, generateSessionID, time_Now, Do, write_image,
    client_identity, account_page, Redirect, http_Error, Write, WriteHeader,
    Header_Set, Header_Del, Header_has, SetCookie, Printf, modify, panic,
    mbind, M_bind, mret, M_ret in *.

Ltac run :=
  unfold_ops;
  cbn [fst snd st_now_calls st_log st_payloads st_posts st_header st_cookies
       st_head st_body with_now_calls with_log with_payloads with_posts
       with_header with_cookies with_head with_body initial
       Status SentHeader SentCookies negb andb orb fmap option_fmap option_map
       app] in *.

(** ** Facts about the string functions *)

Example Trim_ex : Trim "//octocat/readme/" "/" = "octocat/readme".
Proof. reflexivity. Qed.

Example SplitN_ex : SplitN "octocat/a/b" "/" 2 = ["octocat"; "a/b"].
Proof. reflexivity. Qed.

Example SplitN_empty : SplitN "" "/" 2 = [""].
Proof. reflexivity. Qed.

Example Replace_ex :
  Replace (Replace "https://example.com/x" "http://" "" 1) "https://" "" 1
  = "example.com/x".
Proof. reflexivity. Qed.

Example EncodeToString_ex : EncodeToString ["000"; "171"; "255"]%char = "00abff".
Proof. reflexivity. Qed.

Example FormatInt_ex : FormatInt 1761868800 = "1761868800" ∧ FormatInt (-7) = "-7".
Proof. split; reflexivity. Qed.

Example CanonicalMIMEHeaderKey_ex :
  CanonicalMIMEHeaderKey "CID" = "Cid" ∧
  CanonicalMIMEHeaderKey "content-type" = "Content-Type" ∧
  CanonicalMIMEHeaderKey "X-Content-Type-Options" = "X-Content-Type-Options".
Proof. repeat split. Qed.

Section StringFacts.

Lemma app_String (a : ascii) (s t : string) : String a s +:+ t = String a (s +:+ t).
Proof. reflexivity. Qed.

Lemma app_empty_l (t : string) : "" +:+ t = t.
Proof. reflexivity. Qed.

Lemma Cut_unfold (s sep : string) :
  Cut s sep =
  match after_prefix sep s with
  | Some rest => Some (EmptyString, rest)
  | None =>
      match s with
      | EmptyString => None
      | String a s' =>
          match Cut s' sep with
          | Some (before, after) => Some (String a before, after)
          | None => None
          end
      end
  end.
Proof. destruct s; reflexivity. Qed.

(** Cutting a path that had [/] and more appended to it. *)
Lemma Cut_slash_app (t r : string) :
  Cut (t +:+ "/" +:+ r) "/" =
  match Cut t "/" with
  | Some (a, b) => Some (a, b +:+ "/" +:+ r)
  | None => Some (t, r)
  end.
Proof.
  induction t as [|c t IH]; [reflexivity|].
  rewrite app_String, (Cut_unfold (String c _)), (Cut_unfold (String c t)).
  cbn [after_prefix]. destruct (decide ("/"%char = c)) as [->|Hc]; [reflexivity|].
  rewrite IH. destruct (Cut t "/") as [[a b]|]; reflexivity.
Qed.

Lemma SplitN_2 (s sep : string) :
  SplitN s sep 2 =
  match Cut s sep with
  | Some (before, after) => [before; after]
  | None => [s]
  end.
Proof. cbn [SplitN]. destruct (Cut s sep) as [[a b]|]; reflexivity. Qed.

(** What the appended referer does to the two segments. *)
Lemma SplitN_slash_app (t r : string) :
  SplitN (t +:+ "/" +:+ r) "/" 2 =
  match SplitN t "/" 2 with
  | [account] => [account; r]
  | [account; page] => [account; page +:+ "/" +:+ r]
  | other => other
  end.
Proof.
  rewrite !SplitN_2, Cut_slash_app. destruct (Cut t "/") as [[a b]|]; reflexivity.
Qed.

Lemma TrimRight_head (a : ascii) (s cutset : string) :
  in_cutset cutset a = false →
  ∃ s', TrimRight (String a s) cutset = String a s'.
Proof.
  intros Ha. cbn [TrimRight]. rewrite Ha.
  destruct (TrimRight s cutset); eauto.
Qed.

Lemma TrimLeft_head (s cutset : string) :
  TrimLeft s cutset = "" ∨
  ∃ a s', TrimLeft s cutset = String a s' ∧ in_cutset cutset a = false.
Proof.
  induction s as [|a s IH]; [by left|].
  cbn [TrimLeft]. destruct (in_cutset cutset a) eqn:Ha; [exact IH|].
  right. eauto.
Qed.

(** A trimmed path is empty or starts with a byte outside the cutset. *)
Lemma Trim_head (s cutset : string) :
  Trim s cutset = "" ∨
  ∃ a s', Trim s cutset = String a s' ∧ in_cutset cutset a = false.
Proof.
  unfold Trim. destruct (TrimLeft_head s cutset) as [->|(a & s' & -> & Ha)].
  - by left.
  - right. destruct (TrimRight_head a s' cutset Ha) as [s'' ->]. eauto.
Qed.

(** The first segment of a trimmed path is empty only for the root path. *)
Lemma path_segments_root (r : Request) :
  String.length (path_segments r !!! 0%nat) = 0%nat ↔ Trim (URL_Path r) "/" = "".
Proof.
  unfold path_segments. rewrite SplitN_2.
  destruct (Trim_head (URL_Path r) "/") as [->|(a & s' & -> & Ha)]; [done|].
  cbn [in_cutset] in Ha. destruct (decide ("/"%char = a)) as [|Hne]; [done|].
  rewrite Cut_unfold. cbn [after_prefix]. destruct (decide ("/"%char = a)); [done|].
  destruct (Cut s' "/") as [[b c]|]; cbn; split; intros; discriminate.
Qed.

(** [FormatInt] writes the decimal numeral of its argument: reading the
    string back gives the number. *)
Lemma FormatInt_decimal (i : Z) :
  option_map Z.of_int (NilZero.int_of_string (FormatInt i)) = Some i.
Proof.
  unfold FormatInt.
  rewrite NilZero.isi.
  - cbn. f_equal. apply DecimalZ.of_to.
  - destruct i as [|p|p]; cbn; try discriminate.
    intros [= H]. by apply DecimalPos.Unsigned.to_uint_nonnil in H.
  - destruct i as [|p|p]; cbn; try discriminate.
    intros [= H]. by apply DecimalPos.Unsigned.to_uint_nonnil in H.
Qed.

End StringFacts.

(** ** The request interpreter: path segments and the referer rewrite *)
Section Interpreter.

Lemma useReferer_key (r : Request) :
  is_Some (handler_query r !! "useReferer") ↔ is_Some (URL_Query r !! "useReferer").
Proof.
  unfold handler_query. case_decide; [|done].
  by rewrite lookup_insert_ne.
Qed.

Lemma length_zero_empty (s : string) : String.length s = 0%nat ↔ s = "".
Proof. destruct s; cbn; split; intros; done. Qed.

Lemma path_segments_shape (r : Request) :
  (∃ account, path_segments r = [account]) ∨
  (∃ account page, path_segments r = [account; page]).
Proof.
  unfold path_segments. rewrite SplitN_2.
  destruct (Cut _ _) as [[a b]|]; eauto.
Qed.

Lemma after_prefix_app (p rest : string) : after_prefix p (p +:+ rest) = Some rest.
Proof.
  induction p as [|a p IH]; [by destruct rest|].
  rewrite app_String. cbn [after_prefix]. by destruct (decide (a = a)).
Qed.

Lemma Cut_prefix (p rest : string) : Cut (p +:+ rest) p = Some ("", rest).
Proof. by rewrite Cut_unfold, after_prefix_app. Qed.

Lemma Replace_1 (s old new : string) :
  Replace s old new 1 =
  match Cut s old with
  | Some (before, after) => before +:+ new +:+ after
  | None => s
  end.
Proof. reflexivity. Qed.

(** An address that starts with [http://] and holds no [https://] loses
    exactly its scheme, and likewise with the two schemes exchanged. *)
Lemma stripped_http (rest : string) :
  Cut rest "https://" = None →
  Replace (Replace ("http://" +:+ rest) "http://" "" 1) "https://" "" 1 = rest.
Proof. intros H. by rewrite !Replace_1, Cut_prefix, !app_empty_l, H. Qed.

Lemma Cut_skip (a : ascii) (s sep : string) :
  after_prefix sep (String a s) = None →
  Cut (String a s) sep =
  match Cut s sep with
  | Some (before, after) => Some (String a before, after)
  | None => None
  end.
Proof. intros H. by rewrite Cut_unfold, H. Qed.

Lemma Cut_https_http (rest : string) :
  Cut rest "http://" = None → Cut ("https://" +:+ rest) "http://" = None.
Proof.
  intros H.
  change ("https://" +:+ rest) with
    (String "h" (String "t" (String "t" (String "p" (String "s"
      (String ":" (String "/" (String "/" rest)))))))).
  repeat (rewrite Cut_skip by (cbn [after_prefix]; repeat case_decide; congruence)).
  by rewrite H.
Qed.

Lemma stripped_https (rest : string) :
  Cut rest "http://" = None →
  Replace (Replace ("https://" +:+ rest) "http://" "" 1) "https://" "" 1 = rest.
Proof.
  intros H. rewrite (Replace_1 ("https://" +:+ rest)), Cut_https_http by done.
  by rewrite Replace_1, Cut_prefix.
Qed.

Lemma handler_params_eq (r : Request) :
  handler_params r =
  if decide (is_Some (URL_Query r !! "useReferer") ∧ Header_Referer r ≠ ""
             ∧ stripped_referer r ≠ "")
  then
    match path_segments r with
    | [account] => [account; stripped_referer r]
    | [account; page] => [account; page +:+ "/" +:+ stripped_referer r]
    | other => other
    end
  else path_segments r.
Proof.
  unfold handler_params, useReferer_params. fold (stripped_referer r).
  pose proof (useReferer_key r) as Hk.
  pose proof (length_zero_empty (Header_Referer r)) as Hr.
  pose proof (length_zero_empty (stripped_referer r)) as Hs.
  repeat case_decide; try tauto.
  apply SplitN_slash_app.
Qed.

End Interpreter.

(** ** The identity generator *)
Section Identity.

Variable w : World.

Lemma hexdigit_lower (n : N) : lower_hex_digit (hexdigit n) = true.
Proof.
  unfold hexdigit. generalize (N.to_nat n) as k. intros k.
  do 16 (destruct k as [|k]; [reflexivity|]). reflexivity.
Qed.

Lemma EncodeToString_lower (b : list ascii) : all_lower_hex (EncodeToString b) = true.
Proof.
  induction b as [|v b IH]; [reflexivity|].
  cbn [EncodeToString all_lower_hex]. by rewrite !hexdigit_lower, IH.
Qed.

Lemma EncodeToString_length (b : list ascii) :
  String.length (EncodeToString b) = (2 * length b)%nat.
Proof. induction b as [|v b IH]; [reflexivity|]. cbn [EncodeToString String.length length]. lia. Qed.

Lemma uuid_bytes_length : length (uuid_bytes w) = 16%nat.
Proof. unfold uuid_bytes. cbn zeta. by rewrite !length_insert, length_imap. Qed.

Lemma generateUUID_ok' (cid : string) :
  rand_err w = None → generateUUID w cid = (EncodeToString (uuid_bytes w), None).
Proof. intros H. unfold generateUUID, rand_Read, uuid_bytes. by rewrite H. Qed.

Lemma uuid_length : String.length (EncodeToString (uuid_bytes w)) = 32%nat.
Proof. by rewrite EncodeToString_length, uuid_bytes_length. Qed.

(** The sixteen bytes, one by one. *)
Lemma uuid_bytes_eq :
  uuid_bytes w =
  [rand_bytes w 0; rand_bytes w 1; rand_bytes w 2; rand_bytes w 3;
   rand_bytes w 4; rand_bytes w 5;
   byte_and (byte_or (rand_bytes w 6) 0x40) 0x4F;
   rand_bytes w 7;
   byte_and (byte_or (rand_bytes w 8) 0x80) 0xBF;
   rand_bytes w 9; rand_bytes w 10; rand_bytes w 11; rand_bytes w 12;
   rand_bytes w 13; rand_bytes w 14; rand_bytes w 15]%nat.
Proof. reflexivity. Qed.

Lemma byte8_range (x : ascii) :
  (0x80 ≤ N_of_ascii (byte_and (byte_or x 0x80) 0xBF) ≤ 0xBF)%N ∧
  N.land (N_of_ascii (byte_and (byte_or x 0x80) 0xBF)) 0x3F
    = N.land (N_of_ascii x) 0x3F.
Proof.
  destruct x as [[] [] [] [] [] [] [] []]; vm_compute; repeat split; discriminate.
Qed.

Lemma byte6_range (x : ascii) :
  (0x40 ≤ N_of_ascii (byte_and (byte_or x 0x40) 0x4F) ≤ 0x4F)%N ∧
  N.land (N_of_ascii (byte_and (byte_or x 0x40) 0x4F)) 0x0F
    = N.land (N_of_ascii x) 0x0F.
Proof.
  destruct x as [[] [] [] [] [] [] [] []]; vm_compute; repeat split; discriminate.
Qed.

End Identity.

(** ** The event builder *)
Section EventBuilder.



Lemma after_prefix_Some (p s rest : string) :
  after_prefix p s = Some rest → s = p +:+ rest.
Proof.
  revert s. induction p as [|a p IH]; intros s H.
  - destruct s; by simplify_eq/=.
  - destruct s as [|b s]; [done|]. cbn [after_prefix] in H.
    case_decide; [|done]. subst. rewrite app_String. f_equal. by apply IH.
Qed.

Lemma range_query_cons (entry : string * list string)
    (entries : list (string * list string)) (base : gmap string string) :
  range_query (entry :: entries) base = range_query entries (add_custom base entry).
Proof. reflexivity. Qed.

(** A key that is not [custom_] followed by something is left alone. *)
Lemma range_query_other (entries : list (string * list string))
    (base : gmap string string) (key : string) :
  (∀ k, key ≠ "custom_" +:+ k) →
  range_query entries base !! key = base !! key.
Proof.
  intros Hk. revert base. induction entries as [|[k vs] es IH]; intros base; [done|].
  rewrite range_query_cons, IH. unfold add_custom.
  destruct (_ && _); [|done]. rewrite lookup_insert_ne; [done|]. by intros <-; eapply Hk.
Qed.

Lemma range_query_absent (entries : list (string * list string))
    (base : gmap string string) (k : string) :
  (∀ vs, (k, vs) ∈ entries → vs = [] ∨ isReservedParam k = true) →
  range_query entries base !! ("custom_" +:+ k) = base !! ("custom_" +:+ k).
Proof.
  revert base. induction entries as [|[k' vs'] es IH]; intros base Hk; [done|].
  rewrite range_query_cons, IH.
  - unfold add_custom.
    destruct (bool_decide _ && _) eqn:Hadd; [|done].
    apply andb_true_iff in Hadd as [Hlen Hres].
    apply bool_decide_eq_true in Hlen. apply negb_true_iff in Hres.
    destruct (decide (k' = k)) as [->|Hne].
    + destruct (Hk vs') as [->|Hr]; [left| |]; cbn in *; [lia|congruence].
    + rewrite lookup_insert_ne; [done|]. by intros ?%(inj _).
  - intros vs Hin. apply Hk. by right.
Qed.

Lemma range_query_present (entries : list (string * list string))
    (base : gmap string string) (k v : string) (vs : list string) :
  NoDup entries.*1 →
  (k, v :: vs) ∈ entries →
  isReservedParam k = false →
  range_query entries base !! ("custom_" +:+ k) = Some v.
Proof.
  intros Hnd Hin Hres. revert base Hnd Hin.
  induction entries as [|[k' vs'] es IH]; intros base Hnd Hin.
  - by apply elem_of_nil in Hin.
  - rewrite range_query_cons. apply NoDup_cons in Hnd as [Hk' Hnd].
    apply elem_of_cons in Hin as [[= <- <-]|Hin]; [|by apply IH].
    rewrite range_query_absent.
    + unfold add_custom. rewrite Hres, bool_decide_eq_true_2 by (cbn; lia).
      cbn. by rewrite lookup_insert_eq.
    + intros vs'' Hin'. destruct Hk'. apply list_elem_of_fmap. by exists (k, vs'').
Qed.

Lemma custom_not_base (k : string) :
  "custom_" +:+ k ≠ "session_id" ∧ "custom_" +:+ k ≠ "user_agent" ∧
  "custom_" +:+ k ≠ "ip_address" ∧ "custom_" +:+ k ≠ "timestamp".
Proof. repeat split; intros H; discriminate H. Qed.

Lemma event_custom (session_id timestamp ua ip : string)
    (query : gmap string (list string)) (k : string) :
  Params (page_view_event session_id timestamp query ua ip) !! ("custom_" +:+ k) =
  match query !! k with
  | Some (v :: _) => if isReservedParam k then None else Some v
  | _ => None
  end.
Proof.
  cbn [Params page_view_event]. destruct (custom_not_base k) as (H1 & H2 & H3 & H4).
  assert (Hbase : ∀ entries,
    (∀ vs, (k, vs) ∈ entries → vs = [] ∨ isReservedParam k = true) →
    range_query entries (base_params session_id timestamp ua ip) !! ("custom_" +:+ k) = None).
  { intros entries He. rewrite range_query_absent by done. unfold base_params.
    by rewrite !lookup_insert_ne, lookup_empty. }
  fold (base_params session_id timestamp ua ip).
  destruct (query !! k) as [[|v vs]|] eqn:Hq.
  - apply Hbase. intros vs ?%elem_of_map_to_list. left. congruence.
  - destruct (isReservedParam k) eqn:Hres.
    + apply Hbase. intros; by right.
    + eapply range_query_present; [apply NoDup_fst_map_to_list| |done].
      by apply elem_of_map_to_list.
  - apply Hbase. intros vs ?%elem_of_map_to_list. congruence.
Qed.

Lemma event_base (session_id timestamp ua ip : string)
    (query : gmap string (list string)) (key : string) :
  (∀ k, key ≠ "custom_" +:+ k) →
  Params (page_view_event session_id timestamp query ua ip) !! key =
  base_params session_id timestamp ua ip !! key.
Proof. intros Hk. cbn [Params page_view_event]. by rewrite range_query_other. Qed.

(** Go leaves the order of a [range] over a map open; the parameters built
    do not depend on it. *)
Lemma range_query_order (entries1 entries2 : list (string * list string))
    (base : gmap string string) :
  NoDup entries1.*1 →
  entries1 ≡ₚ entries2 →
  range_query entries1 base = range_query entries2 base.
Proof.
  intros Hnd Hperm.
  assert (Hnd2 : NoDup entries2.*1) by (by rewrite <- Hperm).
  apply map_eq. intros key.
  destruct (after_prefix "custom_" key) as [k|] eqn:Hkey.
  - apply after_prefix_Some in Hkey as ->.
    destruct (isReservedParam k) eqn:Hres.
    { rewrite !range_query_absent; [done|intros; by right..]. }
    destruct ((list_to_map entries1 : gmap string (list string)) !! k)
      as [[|v vs]|] eqn:Hk.
    + rewrite !range_query_absent; [done|..]; intros vs Hin; left.
      * rewrite <- Hperm in Hin.
        apply (elem_of_list_to_map (M:=gmap string)) in Hin; [congruence|done].
      * apply (elem_of_list_to_map (M:=gmap string)) in Hin; [congruence|done].
    + apply (elem_of_list_to_map (M:=gmap string)) in Hk; [|done].
      rewrite (range_query_present entries1 _ k v vs) by done.
      rewrite Hperm in Hk.
      by rewrite (range_query_present entries2 _ k v vs).
    + apply not_elem_of_list_to_map in Hk.
      rewrite !range_query_absent; [done|..]; intros vs Hin; destruct Hk.
      * rewrite <- Hperm in Hin. apply list_elem_of_fmap. by exists (k, vs).
      * apply list_elem_of_fmap. by exists (k, vs).
  - rewrite !range_query_other; [done|..]; intros k ->;
      by rewrite after_prefix_app in Hkey.
Qed.

End EventBuilder.

(** ** Running the handler *)
Section Handler.

Variable w : World.

(** [handler], with the two values of [params] named. *)
Lemma handler_eq (r : Request) :
  handler w r =
  if decide (String.length (path_segments r !!! 0%nat) = 0%nat) then
    Redirect (Method r) "https://github.com/igrigorik/ga-beacon" 302
  else if decide (length (handler_params r) = 1%nat) then
    account_page w (handler_params r !!! 0%nat) (Header_Referer r)
  else
    cid ← client_identity w r (handler_params r);
    (if decide (String.length cid ≠ 0%nat)
     then track w r (handler_params r) (handler_query r) cid else mret tt) ;;
    write_image w (handler_query r).
Proof. reflexivity. Qed.

Lemma two_path_segments_tracked (r : Request) (account page : string) :
  path_segments r = [account; page] →
  tracked_request r ∧ account ≠ "" ∧
  ∃ page', handler_params r = [account; page'].
Proof.
  intros Hp.
  assert (Ht : Trim (URL_Path r) "/" ≠ "").
  { intros He. apply path_segments_root in He as Hn.
    unfold path_segments in Hp. rewrite He in Hp. discriminate. }
  assert (Ha : account ≠ "").
  { intros ->. apply Ht, path_segments_root. by rewrite Hp. }
  rewrite handler_params_eq, Hp. unfold tracked_request.
  rewrite handler_params_eq, Hp.
  case_decide; eauto.
Qed.

(** The root path is redirected and nothing else happens. *)
Lemma serve_root (r : Request) :
  Trim (URL_Path r) "/" = "" →
  Status <$> st_head (serve w r) = Some 302 ∧
  (st_head (serve w r) ≫= λ h, SentHeader h !! "Location")
    = Some "https://github.com/igrigorik/ga-beacon" ∧
  (SentCookies <$> st_head (serve w r)) = Some [] ∧
  st_cookies (serve w r) = [] ∧
  st_payloads (serve w r) = [] ∧
  st_posts (serve w r) = [] ∧
  st_log (serve w r) = [] ∧
  st_now_calls (serve w r) = 0%nat ∧
  (handler w r initial).1 = Some tt.
Proof.
  intros Ht. apply path_segments_root in Ht.
  unfold serve. rewrite handler_eq. case_decide; [|done].
  run. rewrite lookup_empty.
  rewrite (bool_decide_eq_false_2 (is_Some None)) by (by intros [? ?]).
  destruct (bool_decide (Method r = "GET")), (bool_decide (Method r = "HEAD"));
    run; repeat split; try done; cbn; by simplify_map_eq.
Qed.

Lemma handler_tracked (r : Request) :
  tracked_request r →
  handler w r =
    (cid ← client_identity w r (handler_params r);
     (if decide (String.length cid ≠ 0%nat)
      then track w r (handler_params r) (handler_query r) cid else mret tt) ;;
     write_image w (handler_query r)).
Proof.
  intros [Ht Hl]. rewrite handler_eq.
  case_decide as Hroot; [by apply path_segments_root in Hroot|].
  case_decide; [congruence|done].
Qed.

Lemma client_identity_cookie (r : Request) (params : list string) (s : State) (value : string) :
  Cookie_cid r = Some value →
  client_identity w r params s
  = (Some value, with_log (st_log s ++ [LogExistingCID value]) s).
Proof. intros H. unfold client_identity. rewrite H. reflexivity. Qed.

Lemma generateUUID_fail (cid : string) (err : error) :
  rand_err w = Some err → generateUUID w cid = (cid, Some err).
Proof. intros H. unfold generateUUID, rand_Read. by rewrite H. Qed.

Lemma generateUUID_ok (cid : string) :
  rand_err w = None → ∃ id, generateUUID w cid = (id, None) ∧ id = (generateUUID w "").1.
Proof. intros H. unfold generateUUID, rand_Read. rewrite H. eauto. Qed.

Lemma client_identity_failed (r : Request) (params : list string) (s : State) (err : error) :
  Cookie_cid r = None → rand_err w = Some err →
  client_identity w r params s
  = (Some "", with_log (st_log s ++ [LogUUIDFailed err]) s).
Proof.
  intros H He. unfold client_identity. rewrite H, (generateUUID_fail _ _ He). reflexivity.
Qed.

Lemma client_identity_new (r : Request) (params : list string) (s : State) :
  Cookie_cid r = None → rand_err w = None →
  client_identity w r params s =
    let cid := (generateUUID w "").1 in
    (Some cid,
     with_cookies (st_cookies s ++ [{| cookie_Name := "cid";
                        cookie_Value := sanitizeCookieValue cid;
                        cookie_Path := sanitizeCookiePath ("/" +:+ params !!! 0%nat) |}])
       (with_log (st_log s ++ [LogUUIDGenerated cid]) s)).
Proof.
  intros H He. unfold client_identity. rewrite H.
  destruct (generateUUID_ok "" He) as (id & Hid & ->).
  destruct (generateUUID w "") as [id' err]. simplify_eq. reflexivity.
Qed.

(** [client_identity] does not panic. *)
Lemma client_identity_total (r : Request) (params : list string) (s : State) :
  (client_identity w r params s).1
  = Some (default "" (client_identity w r params s).1).
Proof.
  unfold client_identity. destruct (Cookie_cid r) as [value|]; [done|].
  destruct (generateUUID w "") as [cid [err|]]; done.
Qed.

Lemma bind_run {A B : Type} (m : M A) (f : A → M B) (s : State) :
  (m ≫= f) s =
  match (m s).1 with
  | Some a => f a (m s).2
  | None => (None, (m s).2)
  end.
Proof. unfold mbind, M_bind. by destruct (m s). Qed.

Lemma delivery_result_builds (ua : string) (payload : GA4Payload) :
  request_builds w →
  delivery_result w ua payload = Some (delivery_error w ua payload).
Proof.
  unfold request_builds, delivery_result, delivery_error. intros ->.
  destruct (json_Marshal w payload) as [json|err]; [|done].
  by destruct (client_Do w _).
Qed.

Lemma sendToGA_run (ua ip cid : string) (payload : GA4Payload) (s : State) :
  sendToGA w ua ip cid payload s =
  (delivery_result w ua payload,
   with_log (st_log s ++ delivery_log w ua ip cid payload)
     (with_posts (st_posts s ++ delivery_posts w ua payload)
        (with_payloads (st_payloads s ++ [payload]) s))).
Proof.
  unfold delivery_result, delivery_log, delivery_posts. run.
  destruct (json_Marshal w payload) as [json|err]; run.
  - unfold http_NewRequest.
    destruct (url_Parse_error w (beaconURL w)) as [err|]; run.
    + by rewrite !app_nil_r.
    + change (req_Header_Add _ "Content-Type" "application/json")
        with (beacon_request w ua json).
      destruct (client_Do w _) as [status|err]; run; by rewrite <- ?app_assoc.
  - by rewrite app_nil_r.
Qed.

Lemma logHit_run (params : list string) (query : gmap string (list string))
    (ua ip cid : string) (s : State) :
  logHit w params query ua ip cid s =
  sendToGA w ua ip cid (logHit_payload w query ua ip cid (st_now_calls s))
    (with_now_calls (S (S (st_now_calls s))) s).
Proof. reflexivity. Qed.

Lemma track_run (r : Request) (params : list string) (cid : string) (s : State) :
  track w r params (handler_query r) cid s =
  let n := st_now_calls s in
  let ua := Header_UserAgent r in
  let payload := tracked_payload w r cid n in
  ((λ _, tt) <$> delivery_result w ua payload,
   with_log (st_log s ++ delivery_log w ua (RemoteAddr r) cid payload)
     (with_posts (st_posts s ++ delivery_posts w ua payload)
        (with_payloads (st_payloads s ++ [payload])
           (with_header (tracking_headers w cid n (st_header s))
              (with_now_calls (S (S (S n))) s))))).
Proof.
  unfold track.
  do 4 (rewrite bind_run; cbn [time_Now Header_Set modify fst snd]).
  rewrite bind_run, logHit_run, sendToGA_run. cbn [fst snd].
  unfold tracked_payload. cbn [st_now_calls with_header with_now_calls].
  destruct (delivery_result w _ _); reflexivity.
Qed.

Lemma write_image_run (query : gmap string (list string)) (s : State) :
  st_head s = None →
  write_image w query s =
  let image := selected_image (assets w) query in
  let h := <["Content-Type" := image.1]> (st_header s) in
  (Some tt,
   with_body (st_body s ++ [image.2])
     (with_head (Some {| Status := 200; SentHeader := h;
                         SentCookies := st_cookies s |})
        (with_header h s))).
Proof.
  intros Hs. unfold selected_image. run.
  repeat case_decide; run; rewrite Hs; reflexivity.
Qed.

(** The course of a tracked request: the identity, the tracking when
    there is one, the image unless the tracking has panicked. *)
Lemma handler_tracked_run (r : Request) :
  tracked_request r →
  handler w r initial =
  let cs := client_identity w r (handler_params r) initial in
  let cid := default "" cs.1 in
  if decide (cid ≠ "") then
    let t := track w r (handler_params r) (handler_query r) cid cs.2 in
    match t.1 with
    | Some _ => write_image w (handler_query r) t.2
    | None => (None, t.2)
    end
  else write_image w (handler_query r) cs.2.
Proof.
  intros Ht. rewrite (handler_tracked r Ht), bind_run. cbn zeta.
  pose proof (client_identity_total r (handler_params r) initial) as Hc.
  destruct (client_identity w r (handler_params r) initial) as [[cid|] s0];
    [|discriminate].
  cbn [fst snd default from_option id]. rewrite bind_run.
  pose proof (length_zero_empty cid).
  repeat case_decide; tauto.
Qed.

Lemma selected_image_query (r : Request) :
  selected_image (assets w) (handler_query r) = selected_image (assets w) (URL_Query r).
Proof.
  unfold selected_image, handler_query.
  destruct (decide (Header_Referer r ≠ "")); [|done].
  by rewrite !lookup_insert_ne.
Qed.

Lemma handler_query_other (r : Request) (k : string) :
  k ≠ "referer" → handler_query r !! k = URL_Query r !! k.
Proof.
  intros Hk. unfold handler_query. case_decide; [|done]. by rewrite lookup_insert_ne.
Qed.

Lemma Write_run (data : string) (s : State) :
  Write data s =
  (Some tt,
   with_body (st_body s ++ [data])
     (match st_head s with
      | Some _ => s
      | None => with_head (Some {| Status := 200; SentHeader := st_header s;
                                   SentCookies := st_cookies s |}) s
      end)).
Proof. run. by destruct (st_head s). Qed.

(** [Write_all] appends the chunks; the first of them fixes the head. *)
Lemma Write_all_run (chunks : list string) (s : State) :
  Write_all chunks s =
  (Some tt,
   match chunks with
   | [] => s
   | _ :: _ =>
       with_body (st_body s ++ chunks)
         (match st_head s with
          | Some _ => s
          | None => with_head (Some {| Status := 200; SentHeader := st_header s;
                                       SentCookies := st_cookies s |}) s
          end)
   end).
Proof.
  revert s. induction chunks as [|data chunks IH]; intros s; [done|].
  cbn [Write_all]. rewrite bind_run, Write_run. cbn [fst snd]. rewrite IH.
  f_equal. destruct chunks as [|data' chunks]; [done|].
  destruct (st_head s) as [h|] eqn:Hh; cbn; rewrite ?Hh, <- ?app_assoc; reflexivity.
Qed.

Lemma serve_untracked (r : Request) :
  ¬ tracked_request r →
  st_payloads (serve w r) = [] ∧ st_posts (serve w r) = [] ∧
  (handler w r initial).1 = Some tt.
Proof.
  intros Hn. destruct (decide (Trim (URL_Path r) "/" = "")) as [Ht|Ht].
  { destruct (serve_root r Ht) as (_ & _ & _ & _ & ? & ? & _ & _ & ?). done. }
  unfold serve. rewrite handler_eq.
  case_decide as Hroot; [by apply path_segments_root in Hroot|].
  case_decide as Hlen.
  - unfold account_page. destruct (ExecuteTemplate w _ _) as [chunks [err|]];
      rewrite bind_run, Write_all_run; cbn [fst snd]; destruct chunks; run; done.
  - destruct Hn. split; [done|].
    rewrite handler_params_eq in *.
    destruct (path_segments_shape r) as [[a Ha]|(a & p & Ha)]; rewrite Ha in *;
      case_decide; done.
Qed.

End Handler.

(** ** Tracked requests *)
Section Tracked.

Variable w : World.

(** [client_identity] touches the log and the cookies only. *)
Lemma client_identity_frame (r : Request) (params : list string) (s : State) :
  let s' := (client_identity w r params s).2 in
  st_head s' = st_head s ∧ st_body s' = st_body s ∧ st_header s' = st_header s ∧
  st_payloads s' = st_payloads s ∧ st_posts s' = st_posts s ∧
  st_now_calls s' = st_now_calls s.
Proof.
  unfold client_identity. destruct (Cookie_cid r) as [value|]; [done|].
  destruct (generateUUID w "") as [cid [err|]]; done.
Qed.

(** A tracked request, field by field. Its handler panics when there is
    an identity and [sendToGA] panics on the payload; nothing has been
    written by then. *)
Lemma serve_tracked_fields (r : Request) :
  tracked_request r →
  let cs := client_identity w r (handler_params r) initial in
  let cid := default "" cs.1 in
  let ua := Header_UserAgent r in
  let payload := tracked_payload w r cid 0 in
  let image := selected_image (assets w) (URL_Query r) in
  let tracking := if decide (cid ≠ "") then tracking_headers w cid 0 ∅ else ∅ in
  let headers := <["Content-Type" := image.1]> tracking in
  let result : option unit :=
    if decide (cid ≠ "")
    then (λ _, tt) <$> delivery_result w ua payload else Some tt in
  (handler w r initial).1 = result ∧
  response (serve w r) =
    match result with
    | Some _ => (Some {| Status := 200; SentHeader := headers;
                         SentCookies := st_cookies cs.2 |}, [image.2])
    | None => (None, [])
    end ∧
  st_header (serve w r) = match result with Some _ => headers | None => tracking end ∧
  st_cookies (serve w r) = st_cookies cs.2 ∧
  st_payloads (serve w r) = (if decide (cid ≠ "") then [payload] else []) ∧
  st_posts (serve w r) =
    (if decide (cid ≠ "") then delivery_posts w ua payload else []) ∧
  st_log (serve w r) =
    st_log cs.2 ++
    (if decide (cid ≠ "") then delivery_log w ua (RemoteAddr r) cid payload else []).
Proof.
  intros Ht. unfold serve. rewrite (handler_tracked_run w r Ht). cbn zeta.
  destruct (client_identity_frame r (handler_params r) initial)
    as (Hh & Hb & Hhd & Hp & Hpo & Hn).
  destruct (client_identity w r (handler_params r) initial) as [cid s0].
  cbn [fst snd] in *. rewrite <- selected_image_query.
  case_decide as Hcid.
  - rewrite track_run. cbn zeta. cbn [fst snd]. rewrite Hn.
    destruct (delivery_result w _ _) as [res|]; cbn [fmap option_fmap option_map].
    + rewrite write_image_run by done.
      unfold response. cbn. rewrite Hb, Hhd, Hp, Hpo. repeat split; done.
    + unfold response. cbn. rewrite Hh, Hb, Hhd, Hp, Hpo. repeat split; done.
  - rewrite write_image_run by done. unfold response. cbn.
    rewrite Hb, Hhd, Hp, Hpo, app_nil_r. repeat split; done.
Qed.

(** What a tracked request leaves when its handler returns. *)
Lemma serve_tracked_returns (r : Request) :
  tracked_request r →
  returns w r →
  let cs := client_identity w r (handler_params r) initial in
  let cid := default "" cs.1 in
  let image := selected_image (assets w) (URL_Query r) in
  let headers :=
    <["Content-Type" := image.1]>
      (if decide (cid ≠ "") then tracking_headers w cid 0 ∅ else ∅) in
  response (serve w r) =
    (Some {| Status := 200; SentHeader := headers;
             SentCookies := st_cookies cs.2 |}, [image.2]) ∧
  st_header (serve w r) = headers.
Proof.
  intros Ht Hret. unfold returns in Hret.
  destruct (serve_tracked_fields r Ht) as (Hres & Hr & Hh & _).
  cbn zeta in *. rewrite Hret in Hres. rewrite <- Hres in Hr, Hh. done.
Qed.

(** A handler that panics does so in [sendToGA]: the request is tracked
    and has an identity, the payload is serialized and the request to the
    collect address cannot be built. Nothing has been written. *)
Lemma serve_panics (r : Request) :
  (handler w r initial).1 = None →
  tracked_request r ∧ ¬ request_builds w ∧
  response (serve w r) = (None, []) ∧
  st_posts (serve w r) = [] ∧
  ∃ payload json,
    st_payloads (serve w r) = [payload] ∧
    json_Marshal w payload = inl json ∧
    ClientID payload ≠ "".
Proof.
  intros Hp.
  destruct (decide (Trim (URL_Path r) "/" ≠ "" ∧ length (handler_params r) = 2%nat))
    as [Ht|Hn].
  - split; [done|].
    destruct (serve_tracked_fields r Ht) as (Hres & Hr & _ & _ & Hpl & Hpo & _).
    cbn zeta in *. rewrite Hp in Hres. rewrite <- Hres in Hr.
    rewrite Hr, Hpl, Hpo. clear Hr Hpl Hpo.
    case_decide as Hcid; [|done]. unfold delivery_result, delivery_posts in *.
    destruct (json_Marshal w _) as [json|err] eqn:Hj; [|done].
    unfold request_builds.
    destruct (url_Parse_error w (beaconURL w)) as [err|]; [|by destruct (client_Do w _)].
    split; [done|]. split; [done|]. split; [done|]. eauto.
  - destruct (serve_untracked w r Hn) as (_ & _ & Hret). congruence.
Qed.

(** The handler returns whenever the request to the collect address can
    be built. *)
Lemma builds_returns (r : Request) : request_builds w → returns w r.
Proof.
  intros Hb. unfold returns.
  destruct ((handler w r initial).1) as [[]|] eqn:Hr; [done|].
  by destruct (serve_panics r Hr) as (_ & Hn & _).
Qed.

End Tracked.

(** ** The hexadecimal encoding, digit by digit *)
Section Encoding.

Lemma hex_pair_decodes (v : ascii) :
  match fromHexChar (hexdigit (N.shiftr (N_of_ascii v) 4)),
        fromHexChar (hexdigit (N.land (N_of_ascii v) 15)) with
  | Some x, Some y => ascii_of_N (N.lor (N.shiftl x 4) y) = v
  | _, _ => False
  end.
Proof. destruct v as [[] [] [] [] [] [] [] []]; vm_compute; reflexivity. Qed.

Lemma DecodeString_EncodeToString (b : list ascii) :
  DecodeString (EncodeToString b) = Some b.
Proof.
  induction b as [|v b IH]; [done|].
  cbn [EncodeToString DecodeString]. pose proof (hex_pair_decodes v) as Hv.
  destruct (fromHexChar _) as [x|]; [|done].
  destruct (fromHexChar _) as [y|]; [|done].
  by rewrite IH, Hv.
Qed.

Lemma hexdigit_high (v : ascii) :
  Some (hexdigit (N.shiftr (N_of_ascii v) 4))
  = String.get (N.to_nat (N_of_ascii v / 16)) "0123456789abcdef".
Proof. destruct v as [[] [] [] [] [] [] [] []]; vm_compute; reflexivity. Qed.

Lemma hexdigit_low (v : ascii) :
  Some (hexdigit (N.land (N_of_ascii v) 15))
  = String.get (N.to_nat (N_of_ascii v mod 16)) "0123456789abcdef".
Proof. destruct v as [[] [] [] [] [] [] [] []]; vm_compute; reflexivity. Qed.

Lemma EncodeToString_digits (b : list ascii) (i : nat) (v : ascii) :
  b !! i = Some v →
  String.get (2 * i) (EncodeToString b)
    = String.get (N.to_nat (N_of_ascii v / 16)) "0123456789abcdef" ∧
  String.get (2 * i + 1) (EncodeToString b)
    = String.get (N.to_nat (N_of_ascii v mod 16)) "0123456789abcdef".
Proof.
  revert i. induction b as [|x b IH]; intros i Hi; [done|].
  destruct i as [|i].
  - cbn in Hi. simplify_eq. cbn [EncodeToString]. split.
    + apply hexdigit_high.
    + apply hexdigit_low.
  - cbn in Hi. replace (2 * S i)%nat with (S (S (2 * i))) by lia.
    cbn [EncodeToString]. cbn [String.get Nat.add]. by apply IH.
Qed.

End Encoding.

(** ** Properties of the request pipeline *)
Section Properties.

Variable w : World.

(** X19: when the handler of a request whose trimmed path has two
    segments returns, there is exactly one body write, the image selected
    by the first of the query keys [pixel], [gif], [flat], [flat-gif] that
    is present (the SVG badge when none is), with status 200 and the
    matching [Content-Type] among the headers sent. *)
Theorem one_image_by_priority (r : Request) (account page : string) :
  path_segments r = [account; page] →
  returns w r →
  let image := selected_image (assets w) (URL_Query r) in
  st_body (serve w r) = [image.2] ∧
  Status <$> st_head (serve w r) = Some 200 ∧
  (st_head (serve w r) ≫= λ h, SentHeader h !! "Content-Type") = Some image.1.
Proof.
  intros Hp Hret. destruct (two_path_segments_tracked r _ _ Hp) as (Ht & _ & _).
  destruct (serve_tracked_returns w r Ht Hret) as (Hr & _). cbn zeta in *.
  unfold response in Hr. injection Hr as Hh Hb. rewrite Hh, Hb.
  repeat split. cbn. by rewrite lookup_insert_eq.
Qed.

(** X20: when the request to the collect address can be built, what the
    client of a request with two path segments receives (status, headers,
    cookies, body) is the same whatever [json.Marshal] and the HTTP client
    answer, and the body is the selected image. [logHit] returns the error
    of the delivery to its caller. A dispatched payload is the only one, is
    handed to the HTTP client at most once (no retry), and its error, if
    any, is in the log. *)
Theorem delivery_outcome_not_surfaced (r : Request) (account page : string)
    (marshal : GA4Payload → string + error) (do : OutRequest → string + error) :
  path_segments r = [account; page] →
  request_builds w →
  response (serve (with_delivery w marshal do) r) = response (serve w r) ∧
  st_body (serve w r) = [(selected_image (assets w) (URL_Query r)).2] ∧
  (∀ params query ua ip cid s,
     (logHit w params query ua ip cid s).1
     = Some (delivery_error w ua (logHit_payload w query ua ip cid (st_now_calls s)))) ∧
  (∀ payload, payload ∈ st_payloads (serve w r) →
     st_payloads (serve w r) = [payload] ∧
     st_posts (serve w r) = delivery_posts w (Header_UserAgent r) payload ∧
     (length (st_posts (serve w r)) ≤ 1)%nat ∧
     ∀ err, delivery_error w (Header_UserAgent r) payload = Some err →
       LogMarshalError err ∈ st_log (serve w r) ∨
       LogPostError err ∈ st_log (serve w r)).
Proof.
  intros Hp Hb. destruct (two_path_segments_tracked r _ _ Hp) as (Ht & _ & _).
  assert (Hb' : request_builds (with_delivery w marshal do)) by exact Hb.
  destruct (serve_tracked_returns w r Ht (builds_returns w r Hb)) as (Hr & _).
  destruct (serve_tracked_fields w r Ht) as (_ & _ & _ & _ & Hpl & Hpo & Hlog).
  destruct (serve_tracked_returns (with_delivery w marshal do) r Ht
              (builds_returns _ r Hb')) as (Hr' & _).
  cbn zeta in *. split; [by rewrite Hr, Hr'|].
  split.
  { unfold response in Hr. by injection Hr as _ ->. }
  split.
  { intros. by rewrite logHit_run, sendToGA_run, (delivery_result_builds w _ _ Hb). }
  intros payload Hin. rewrite Hpl in Hin. rewrite Hpl, Hpo, Hlog.
  destruct (decide _) as [Hcid|Hcid]; [|by apply elem_of_nil in Hin].
  apply list_elem_of_singleton in Hin as ->.
  split; [done|]. split; [done|]. split.
  { unfold delivery_posts. destruct (json_Marshal w _); [|cbn; lia].
    destruct (url_Parse_error w _); cbn; lia. }
  intros err He. unfold delivery_error in He. unfold delivery_log.
  unfold request_builds in Hb. rewrite Hb.
  destruct (json_Marshal w _) as [json|e].
  - destruct (client_Do w _) as [status|e]; [done|]. simplify_eq.
    right. apply elem_of_app. right. by left.
  - simplify_eq. left. apply elem_of_app. right. by left.
Qed.




(** C8: when a request with two path segments carries no [cid] cookie
    and the entropy source fails, the failure is logged and nothing else
    is: no cookie is set, the only header is [Content-Type] (no [CID],
    [Cache-Control] or [Expires]), nothing is handed to [sendToGA] or to the
    HTTP client, and the selected image is served with status 200. *)
Theorem identity_failure_non_fatal (r : Request) (account page : string) (err : error) :
  path_segments r = [account; page] →
  Cookie_cid r = None →
  rand_err w = Some err →
  let image := selected_image (assets w) (URL_Query r) in
  st_log (serve w r) = [LogUUIDFailed err] ∧
  st_cookies (serve w r) = [] ∧
  st_header (serve w r) = {[ "Content-Type" := image.1 ]} ∧
  st_payloads (serve w r) = [] ∧
  st_posts (serve w r) = [] ∧
  response (serve w r) =
    (Some {| Status := 200; SentHeader := {[ "Content-Type" := image.1 ]};
             SentCookies := [] |}, [image.2]).
Proof.
  intros Hp Hc He. destruct (two_path_segments_tracked r _ _ Hp) as (Ht & _ & _).
  pose proof (serve_tracked_fields w r Ht) as H. cbn zeta in H.
  rewrite (client_identity_failed w r _ _ err Hc He) in H.
  cbn [fst snd default from_option id] in H.
  rewrite !decide_False in H by (by intros ?).
  destruct H as (_ & Hr & Hh & Hck & Hpl & Hpo & Hlog).
  rewrite Hr, Hh, Hck, Hpl, Hpo, Hlog. repeat split.
Qed.

Lemma lower_hex_cookie_byte (a : ascii) :
  lower_hex_digit a = true →
  validCookieValueByte a = true ∧ in_cutset " ," a = false.
Proof.
  destruct a as [[] [] [] [] [] [] [] []]; vm_compute; intros; try discriminate;
    split; reflexivity.
Qed.

(** [http.SetCookie] leaves an identity of lowercase hexadecimal digits
    as it is. *)
Lemma sanitizeCookieValue_hex (cid : string) :
  all_lower_hex cid = true → sanitizeCookieValue cid = cid.
Proof.
  intros Hhex.
  assert (Hk : keep_bytes validCookieValueByte cid = cid ∧ ContainsAny cid " ," = false).
  { induction cid as [|a cid IH]; [done|].
    cbn [all_lower_hex] in Hhex. apply andb_true_iff in Hhex as [Ha Hhex].
    destruct (lower_hex_cookie_byte a Ha) as [Hv Hc]. destruct (IH Hhex) as [IH1 IH2].
    cbn [keep_bytes ContainsAny]. by rewrite Hv, Hc, IH1, IH2. }
  destruct Hk as [Hk Hc]. unfold sanitizeCookieValue. rewrite Hk, Hc.
  by case_decide.
Qed.

(** What [sanitizeCookiePath] keeps, in the words of its comment: any
    byte from 0x20 to 0x7E except the semicolon. *)
Lemma sanitizeCookiePath_filter (v : string) :
  list_ascii_of_string (sanitizeCookiePath v) =
  filter (λ b, (0x20 ≤ N_of_ascii b < 0x7f)%N ∧ b ≠ ";"%char)
    (list_ascii_of_string v).
Proof.
  unfold sanitizeCookiePath. induction v as [|b v IH]; [done|].
  cbn [keep_bytes list_ascii_of_string]. rewrite filter_cons.
  assert (Hv : validCookiePathByte b = true ↔
               (0x20 ≤ N_of_ascii b < 0x7f)%N ∧ b ≠ ";"%char).
  { unfold validCookiePathByte.
    rewrite !andb_true_iff, negb_true_iff, bool_decide_eq_false, N.leb_le, N.ltb_lt.
    done. }
  destruct (decide _) as [Hp|Hn]; destruct (validCookiePathByte b) eqn:Hb.
  - cbn [list_ascii_of_string]. by rewrite IH.
  - apply Hv in Hp. congruence.
  - destruct Hn. by apply Hv.
  - done.
Qed.

(** C5, as the code has it, for a handler that returns: on a request with
    two path segments, a [cid] cookie is taken over: no cookie is set,
    every dispatched payload carries the cookie's value as [client_id], and
    there is exactly one such payload when the value is not empty. Without
    the cookie, when the entropy source delivers, a new identity of 32
    lowercase hexadecimal digits is generated, set as cookie [cid] whose
    path is [/account] without the bytes a cookie path cannot hold (it
    keeps the bytes from 0x20 to 0x7E other than the semicolon), sent with
    the response, and carried by the one payload dispatched. *)
Theorem client_identity_lifecycle (r : Request) (account page : string) :
  path_segments r = [account; page] →
  returns w r →
  match Cookie_cid r with
  | Some value =>
      st_cookies (serve w r) = [] ∧
      SentCookies <$> st_head (serve w r) = Some [] ∧
      (∀ payload, payload ∈ st_payloads (serve w r) → ClientID payload = value) ∧
      (value ≠ "" → ∃ payload,
         st_payloads (serve w r) = [payload] ∧ ClientID payload = value)
  | None =>
      rand_err w = None →
      ∃ cid,
        generateUUID w "" = (cid, None) ∧
        String.length cid = 32%nat ∧
        all_lower_hex cid = true ∧
        st_cookies (serve w r) =
          [{| cookie_Name := "cid"; cookie_Value := cid;
              cookie_Path := sanitizeCookiePath ("/" +:+ account) |}] ∧
        list_ascii_of_string (sanitizeCookiePath ("/" +:+ account)) =
          filter (λ b, (0x20 ≤ N_of_ascii b < 0x7f)%N ∧ b ≠ ";"%char)
            (list_ascii_of_string ("/" +:+ account)) ∧
        SentCookies <$> st_head (serve w r) = Some (st_cookies (serve w r)) ∧
        ∃ payload, st_payloads (serve w r) = [payload] ∧ ClientID payload = cid
  end.
Proof.
  intros Hp Hret.
  destruct (two_path_segments_tracked r _ _ Hp) as (Ht & _ & page' & Hparams).
  pose proof (serve_tracked_returns w r Ht Hret) as [Hr _].
  pose proof (serve_tracked_fields w r Ht) as H. cbn zeta in H, Hr.
  destruct H as (_ & _ & _ & Hck & Hpl & _).
  unfold response in Hr. injection Hr as Hh _.
  destruct (Cookie_cid r) as [value|] eqn:Hc.
  - rewrite (client_identity_cookie w r _ _ value Hc) in Hh, Hck, Hpl.
    cbn [fst snd default from_option id] in Hh, Hck, Hpl.
    rewrite Hh, Hck, Hpl. repeat split.
    + case_decide; [intros p ->%list_elem_of_singleton; done|by intros p ?%elem_of_nil].
    + intros Hv. rewrite decide_True by done. eauto.
  - intros He.
    pose proof (generateUUID_ok' w "" He) as Hgen.
    pose proof (uuid_length w) as Hlen.
    pose proof (EncodeToString_lower (uuid_bytes w)) as Hhex.
    remember (EncodeToString (uuid_bytes w)) as cid eqn:Hcid. clear Hcid.
    rewrite (client_identity_new w r _ _ Hc He), Hgen in Hh, Hck, Hpl.
    cbn zeta in Hh, Hck, Hpl. cbn [fst snd default from_option id] in Hh, Hck, Hpl.
    rewrite (sanitizeCookieValue_hex cid Hhex) in Hh, Hck.
    assert (Hne : cid ≠ "") by (by intros ->).
    rewrite !decide_True in Hpl by done.
    rewrite Hh, Hck, Hpl, Hparams.
    exists cid. do 4 (split; [done|]).
    split; [apply sanitizeCookiePath_filter|]. split; eauto.
Qed.

Lemma dispatched_payload (r : Request) (payload : GA4Payload) :
  payload ∈ st_payloads (serve w r) →
  ∃ cid, payload = tracked_payload w r cid 0 ∧ st_payloads (serve w r) = [payload].
Proof.
  intros Hin.
  destruct (decide (Trim (URL_Path r) "/" ≠ "" ∧ length (handler_params r) = 2%nat))
    as [Ht|Hn].
  - destruct (serve_tracked_fields w r Ht) as (_ & _ & _ & _ & Hpl & _).
    cbn zeta in Hpl. rewrite Hpl in *. case_decide; [|by apply elem_of_nil in Hin].
    apply list_elem_of_singleton in Hin as ->. eauto.
  - destruct (serve_untracked w r Hn) as [Hpl _]. rewrite Hpl in Hin.
    by apply elem_of_nil in Hin.
Qed.



(** C7: every dispatched payload holds exactly one event, named
    [page_view], whose parameters include [session_id], the decimal numeral
    of the Unix second read from the clock for it, [user_agent],
    [ip_address] and [timestamp], the clock formatted as RFC3339; every
    other parameter is [custom_k] for a key [k] of the request's query. *)
Theorem page_view_payload (r : Request) (payload : GA4Payload) :
  payload ∈ st_payloads (serve w r) →
  ∃ event,
    Events payload = [event] ∧
    Name event = "page_view" ∧
    Params event !! "session_id" = Some (FormatInt (Unix (Now w 1))) ∧
    option_map Z.of_int (NilZero.int_of_string (FormatInt (Unix (Now w 1))))
      = Some (Unix (Now w 1)) ∧
    Params event !! "user_agent" = Some (Header_UserAgent r) ∧
    Params event !! "ip_address" = Some (RemoteAddr r) ∧
    Params event !! "timestamp" = Some (Format (Now w 2) RFC3339) ∧
    ∀ key, is_Some (Params event !! key) →
      key ∈ ["session_id"; "user_agent"; "ip_address"; "timestamp"] ∨
      ∃ k, key = "custom_" +:+ k ∧ is_Some (URL_Query r !! k).
Proof.
  intros (cid & -> & _)%dispatched_payload.
  eexists. split; [reflexivity|]. split; [reflexivity|].
  assert (Hbase : ∀ key, key ∈ ["session_id"; "user_agent"; "ip_address"; "timestamp"] →
            ∀ k, key ≠ "custom_" +:+ k).
  { intros key Hkey k ->. destruct (custom_not_base k) as (? & ? & ? & ?).
    repeat (apply elem_of_cons in Hkey as [?|Hkey]; [done|]).
    by apply elem_of_nil in Hkey. }
  split; [rewrite event_base by (apply Hbase; repeat constructor); done|].
  split; [apply FormatInt_decimal|].
  split; [rewrite event_base by (apply Hbase; repeat constructor); done|].
  split; [rewrite event_base by (apply Hbase; repeat constructor); done|].
  split; [rewrite event_base by (apply Hbase; repeat constructor); done|].
  intros key Hsome.
  destruct (after_prefix "custom_" key) as [k|] eqn:Hkey.
  - apply after_prefix_Some in Hkey as ->. right. exists k. split; [done|].
    rewrite event_custom in Hsome.
    destruct (handler_query r !! k) as [[|v vs]|] eqn:Hq; [by destruct Hsome| |by destruct Hsome].
    destruct (isReservedParam k) eqn:Hres; [by destruct Hsome|].
    rewrite <- (handler_query_other r k), Hq; [done|].
    intros ->. done.
  - left. rewrite event_base in Hsome.
    + unfold base_params in Hsome.
      repeat (apply lookup_insert_is_Some in Hsome as [<-|[_ Hsome]];
                [repeat constructor|]).
      rewrite lookup_empty in Hsome. by destruct Hsome.
    + intros k ->. by rewrite after_prefix_app in Hkey.
Qed.


(** C6: [generateUUID] returns the error of the entropy source, leaving
    the identity as it was, exactly when the read fails; otherwise it
    returns no error and the hexadecimal encoding of sixteen bytes that
    are the random ones except for byte 8, forced into 0x80-0xBF (low six
    bits kept), and byte 6, forced into 0x40-0x4F (low four bits kept).
    The encoding has 32 lowercase digits, two per byte: the digit of the
    high four bits, then the digit of the low four bits, so that decoding
    it gives the sixteen bytes back. *)
Theorem generateUUID_spec (cid : string) :
  match rand_err w with
  | Some err => generateUUID w cid = (cid, Some err)
  | None =>
      ∃ (id : string) (b : list ascii) (b6 b8 : ascii),
        generateUUID w cid = (id, None) ∧
        id = EncodeToString b ∧
        DecodeString id = Some b ∧
        (∀ i v, b !! i = Some v →
           String.get (2 * i) id
             = String.get (N.to_nat (N_of_ascii v / 16)) "0123456789abcdef" ∧
           String.get (2 * i + 1) id
             = String.get (N.to_nat (N_of_ascii v mod 16)) "0123456789abcdef") ∧
        length b = 16%nat ∧
        (∀ i, i ≠ 6%nat → i ≠ 8%nat → (i < 16)%nat → b !! i = Some (rand_bytes w i)) ∧
        b !! 8%nat = Some b8 ∧
        (0x80 ≤ N_of_ascii b8 ≤ 0xBF)%N ∧
        N.land (N_of_ascii b8) 0x3F = N.land (N_of_ascii (rand_bytes w 8)) 0x3F ∧
        b !! 6%nat = Some b6 ∧
        (0x40 ≤ N_of_ascii b6 ≤ 0x4F)%N ∧
        N.land (N_of_ascii b6) 0x0F = N.land (N_of_ascii (rand_bytes w 6)) 0x0F ∧
        String.length id = 32%nat ∧
        all_lower_hex id = true
  end.
Proof.
  destruct (rand_err w) as [err|] eqn:He; [by apply generateUUID_fail|].
  exists (EncodeToString (uuid_bytes w)), (uuid_bytes w),
    (byte_and (byte_or (rand_bytes w 6) 0x40) 0x4F),
    (byte_and (byte_or (rand_bytes w 8) 0x80) 0xBF).
  destruct (byte8_range (rand_bytes w 8)) as [H8 H8'].
  destruct (byte6_range (rand_bytes w 6)) as [H6 H6'].
  split; [by apply generateUUID_ok'|]. split; [done|].
  split; [apply DecodeString_EncodeToString|].
  split; [apply EncodeToString_digits|].
  split; [apply uuid_bytes_length|].
  split.
  { intros i Hi6 Hi8 Hi. rewrite uuid_bytes_eq.
    do 16 (destruct i as [|i]; [done|]). lia. }
  repeat split;
    first [done | apply H8 | apply H6 | apply uuid_length | apply EncodeToString_lower].
Qed.

(** C9: a request whose trimmed path is empty is answered with status
    302 and the [Location] of the project page; no cookie is set and
    nothing is handed to [sendToGA] or to the HTTP client. *)
Theorem root_redirect_untracked (r : Request) :
  Trim (URL_Path r) "/" = "" →
  Status <$> st_head (serve w r) = Some 302 ∧
  (st_head (serve w r) ≫= λ h, SentHeader h !! "Location")
    = Some "https://github.com/igrigorik/ga-beacon" ∧
  SentCookies <$> st_head (serve w r) = Some [] ∧
  st_cookies (serve w r) = [] ∧
  st_payloads (serve w r) = [] ∧
  st_posts (serve w r) = [].
Proof.
  intros Ht. destruct (serve_root w r Ht) as (? & ? & ? & ? & ? & ? & _).
  repeat split; done.
Qed.

End Properties.

(** C10: the [useReferer] block never changes the account: the first
    segment of [params] after the block is the first segment of the
    trimmed path, for every request. *)
Theorem account_segment_preserved (r : Request) :
  ∃ account,
    path_segments r !! 0%nat = Some account ∧
    handler_params r !! 0%nat = Some account.
Proof.
  rewrite handler_params_eq.
  destruct (path_segments_shape r) as [[a ->]|(a & p & ->)];
    exists a; case_decide; done.
Qed.

(** X23: the referer rewrite as the code has it: without a [Referer]
    header the path segments are used unchanged. With a query key
    [useReferer] and a non-empty [Referer], the referer loses the first
    [http://] and then the first [https://] found anywhere in it. When
    something is left, a path of one segment [account] gets the stripped
    referer as page segment ([account/stripped] is split on its first
    slash), and a path of two segments [account/page] gets
    [page/stripped]; when nothing is left, [params] stays as it was. For a
    referer that starts with one of the two schemes and does not hold the
    other, what is removed is exactly the scheme prefix. *)
Theorem useReferer_rewrite (r : Request) :
  (Header_Referer r = "" → handler_params r = path_segments r) ∧
  (∀ account, path_segments r = [account] →
     is_Some (URL_Query r !! "useReferer") →
     Header_Referer r ≠ "" →
     handler_params r =
       if decide (stripped_referer r = "") then [account]
       else SplitN (account +:+ "/" +:+ stripped_referer r) "/" 2) ∧
  (∀ account, path_segments r = [account] →
     is_Some (URL_Query r !! "useReferer") →
     Header_Referer r ≠ "" →
     stripped_referer r ≠ "" →
     handler_params r = [account; stripped_referer r]) ∧
  (∀ account page, path_segments r = [account; page] →
     is_Some (URL_Query r !! "useReferer") →
     Header_Referer r ≠ "" →
     stripped_referer r ≠ "" →
     handler_params r = [account; page +:+ "/" +:+ stripped_referer r]) ∧
  (∀ rest, Header_Referer r = "http://" +:+ rest →
     Cut rest "https://" = None → stripped_referer r = rest) ∧
  (∀ rest, Header_Referer r = "https://" +:+ rest →
     Cut rest "http://" = None → stripped_referer r = rest).
Proof.
  assert (Hone : ∀ account, path_segments r = [account] →
            Trim (URL_Path r) "/" = account).
  { unfold path_segments. rewrite SplitN_2. intros account.
    destruct (Cut _ _) as [[??]|]; congruence. }
  repeat split.
  - intros Hr. rewrite handler_params_eq. case_decide; [tauto|done].
  - intros account Hp Hk Hr. rewrite handler_params_eq, Hp.
    pose proof (SplitN_slash_app (Trim (URL_Path r) "/") (stripped_referer r)) as Hs.
    fold (path_segments r) in Hs. rewrite Hp, (Hone _ Hp) in Hs.
    repeat case_decide; try tauto; done.
  - intros account Hp Hk Hr Hs. rewrite handler_params_eq, Hp.
    case_decide; [done|tauto].
  - intros account page Hp Hk Hr Hs. rewrite handler_params_eq, Hp.
    case_decide; [done|tauto].
  - intros rest Hr Hc. unfold stripped_referer. rewrite Hr. by apply stripped_http.
  - intros rest Hr Hc. unfold stripped_referer. rewrite Hr. by apply stripped_https.
Qed.

(** C1: the page segment is not the referer without its scheme prefix
    at two requests with the key [useReferer]. On the path
    [/octocat/readme], sent from [https://example.com/page], the path is
    not ignored: the referer is appended to the page segment, which becomes
    [readme/example.com/page] and not [example.com/page]. On the path
    [/octocat], sent from [https://search.example/url?q=http://example.com/],
    the [http://] inside the referer is removed as well as the prefix: the
    page segment becomes [search.example/url?q=example.com/]. *)
Theorem useReferer_page_not_stripped_referer :
  handler_params referer_request = ["octocat"; "readme/example.com/page"] ∧
  strip_scheme_prefix (Header_Referer referer_request) = "example.com/page" ∧
  ¬ page_is_stripped_referer referer_request ∧
  handler_params nested_referer_request
    = ["octocat"; "search.example/url?q=example.com/"] ∧
  strip_scheme_prefix (Header_Referer nested_referer_request)
    = "search.example/url?q=http://example.com/" ∧
  ¬ page_is_stripped_referer nested_referer_request.
Proof.
  do 2 (split; [reflexivity|]). split.
  { intros H.
    assert (Hp : handler_params referer_request !! 1%nat = Some "example.com/page").
    { apply H; [by eexists | discriminate | discriminate]. }
    vm_compute in Hp. discriminate. }
  do 2 (split; [reflexivity|]). intros H.
  assert (Hp : handler_params nested_referer_request !! 1%nat
               = Some "search.example/url?q=http://example.com/").
  { apply H; [by eexists | discriminate | discriminate]. }
  vm_compute in Hp. discriminate.
Qed.

(** C3: with a measurement id that ends in a line feed, the address of
    the collect request holds a control character and [http.NewRequest]
    fails; its error is dropped and [sendToGA] panics on the [nil] request.
    The request [GET /octocat/readme?flat&src=newsletter] with a [cid]
    cookie has two path segments, yet its handler does not return, no body
    is written and no status is sent. *)
Theorem image_lost_when_request_unbuildable :
  path_segments flat_request = ["octocat"; "readme"] ∧
  stringContainsCTLByte (beaconURL control_config_world) = true ∧
  (handler control_config_world flat_request initial).1 = None ∧
  st_body (serve control_config_world flat_request) = [] ∧
  st_head (serve control_config_world flat_request) = None.
Proof. vm_compute. repeat split. Qed.

(** C4: with the same configuration, what the client receives depends on
    the outcome of the dispatch. When [json.Marshal] fails, [sendToGA]
    returns its error and the flat badge is served; when it succeeds,
    [sendToGA] goes on to the request it cannot build and panics: it
    returns no error to [logHit] and its caller, it logs none, and the
    client receives nothing. *)
Theorem delivery_outcome_surfaces_when_request_unbuildable :
  path_segments flat_request = ["octocat"; "readme"] ∧
  response (serve (with_delivery control_config_world
                     (λ _, inr "json: unsupported value")
                     (client_Do control_config_world)) flat_request)
  = (Some {| Status := 200;
             SentHeader :=
               <["Content-Type" := "image/svg+xml"]>
                 (tracking_headers control_config_world
                    "0123456789abcdef0123456789abcdef" 0 ∅);
             SentCookies := [] |}, ["<svg>flat</svg>"]) ∧
  response (serve control_config_world flat_request) = (None, []) ∧
  (logHit control_config_world (handler_params flat_request)
     (handler_query flat_request) "Mozilla/5.0" "203.0.113.7:4711"
     "0123456789abcdef0123456789abcdef" initial).1 = None ∧
  st_log (serve control_config_world flat_request)
  = [LogExistingCID "0123456789abcdef0123456789abcdef"].
Proof. vm_compute. repeat split. Qed.

(** ** The properties at the sample requests *)

Lemma flat_payload_dispatched :
  st_payloads (serve sample_world flat_request) = [flat_payload].
Proof. vm_compute. reflexivity. Qed.

Lemma useReferer_rewrite_witness :
  path_segments nested_referer_request = ["octocat"] ∧
  is_Some (URL_Query nested_referer_request !! "useReferer") ∧
  Header_Referer nested_referer_request ≠ "" ∧
  stripped_referer nested_referer_request ≠ "" ∧
  handler_params nested_referer_request
    = ["octocat"; "search.example/url?q=example.com/"].
Proof.
  assert (H1 : path_segments nested_referer_request = ["octocat"]) by reflexivity.
  assert (H2 : is_Some (URL_Query nested_referer_request !! "useReferer"))
    by (by eexists).
  assert (H3 : Header_Referer nested_referer_request ≠ "") by discriminate.
  assert (H4 : stripped_referer nested_referer_request ≠ "") by discriminate.
  refine (conj H1 (conj H2 (conj H3 (conj H4 _)))).
  exact (proj1 (proj2 (proj2 (useReferer_rewrite nested_referer_request)))
           "octocat" H1 H2 H3 H4).
Defined.




Lemma one_image_witness :
  path_segments pixel_request = ["octocat"; "readme"] ∧
  returns sample_world pixel_request ∧
  st_body (serve sample_world pixel_request) = ["GIF89a-pixel"] ∧
  Status <$> st_head (serve sample_world pixel_request) = Some 200 ∧
  (st_head (serve sample_world pixel_request) ≫= λ h, SentHeader h !! "Content-Type")
    = Some "image/gif".
Proof.
  assert (H1 : path_segments pixel_request = ["octocat"; "readme"]) by reflexivity.
  assert (H2 : returns sample_world pixel_request) by reflexivity.
  exact (conj H1 (conj H2
    (one_image_by_priority sample_world pixel_request _ _ H1 H2))).
Defined.

Lemma delivery_outcome_witness :
  path_segments pixel_request = ["octocat"; "readme"] ∧
  request_builds sample_world ∧
  response (serve offline_world pixel_request)
    = response (serve sample_world pixel_request).
Proof.
  assert (H1 : path_segments pixel_request = ["octocat"; "readme"]) by reflexivity.
  assert (H2 : request_builds sample_world) by reflexivity.
  exact (conj H1 (conj H2
    (proj1 (delivery_outcome_not_surfaced sample_world pixel_request _ _
              (json_Marshal sample_world) (client_Do offline_world) H1 H2)))).
Defined.

Lemma client_identity_witness :
  path_segments pixel_request = ["octocat"; "readme"] ∧
  returns sample_world pixel_request ∧
  rand_err sample_world = None ∧
  ∃ cid,
    generateUUID sample_world "" = (cid, None) ∧
    String.length cid = 32%nat ∧
    all_lower_hex cid = true ∧
    st_cookies (serve sample_world pixel_request) =
      [{| cookie_Name := "cid"; cookie_Value := cid; cookie_Path := "/octocat" |}] ∧
    list_ascii_of_string (sanitizeCookiePath "/octocat") =
      filter (λ b, (0x20 ≤ N_of_ascii b < 0x7f)%N ∧ b ≠ ";"%char)
        (list_ascii_of_string "/octocat") ∧
    SentCookies <$> st_head (serve sample_world pixel_request)
      = Some (st_cookies (serve sample_world pixel_request)) ∧
    ∃ payload,
      st_payloads (serve sample_world pixel_request) = [payload] ∧
      ClientID payload = cid.
Proof.
  assert (H1 : path_segments pixel_request = ["octocat"; "readme"]) by reflexivity.
  assert (H2 : returns sample_world pixel_request) by reflexivity.
  assert (H3 : rand_err sample_world = None) by reflexivity.
  exact (conj H1 (conj H2 (conj H3
    (client_identity_lifecycle sample_world pixel_request _ _ H1 H2 H3)))).
Defined.

Lemma page_view_witness :
  flat_payload ∈ st_payloads (serve sample_world flat_request) ∧
  ∃ event,
    Events flat_payload = [event] ∧
    Name event = "page_view" ∧
    Params event !! "session_id" = Some "1761868800".
Proof.
  assert (H1 : flat_payload ∈ st_payloads (serve sample_world flat_request)).
  { rewrite flat_payload_dispatched. apply list_elem_of_here. }
  destruct (page_view_payload sample_world flat_request flat_payload H1)
    as (event & He & Hn & Hs & _).
  exact (conj H1 (ex_intro _ event (conj He (conj Hn Hs)))).
Defined.

(** Without a cookie and without entropy no identity is generated: no
    cookie is set and nothing is dispatched. And the path of a cookie that
    is set is not always [/account]: for the account [oc;to] it is
    [/octo]. *)
Lemma no_identity_without_entropy :
  path_segments pixel_request = ["octocat"; "readme"] ∧
  ¬ new_identity_without_cookie no_entropy_world pixel_request "octocat" ∧
  path_segments semicolon_request = ["oc;to"; "readme"] ∧
  (cookie_Path <$> st_cookies (serve sample_world semicolon_request)) = ["/octo"] ∧
  ¬ new_identity_without_cookie sample_world semicolon_request "oc;to".
Proof.
  split; [reflexivity|]. split.
  { intros H. destruct (H eq_refl) as (cid & _ & _ & Hcookies & _).
    vm_compute in Hcookies. discriminate. }
  split; [reflexivity|]. split; [reflexivity|]. intros H.
  destruct (H eq_refl) as (cid & _ & _ & Hcookies & _).
  vm_compute in Hcookies. discriminate.
Qed.

Lemma identity_failure_witness :
  path_segments pixel_request = ["octocat"; "readme"] ∧
  Cookie_cid pixel_request = None ∧
  rand_err no_entropy_world = Some "entropy source unavailable" ∧
  st_log (serve no_entropy_world pixel_request)
    = [LogUUIDFailed "entropy source unavailable"] ∧
  st_cookies (serve no_entropy_world pixel_request) = [] ∧
  st_header (serve no_entropy_world pixel_request)
    = {[ "Content-Type" := "image/gif" ]} ∧
  st_payloads (serve no_entropy_world pixel_request) = [] ∧
  st_posts (serve no_entropy_world pixel_request) = [] ∧
  response (serve no_entropy_world pixel_request) =
    (Some {| Status := 200; SentHeader := {[ "Content-Type" := "image/gif" ]};
             SentCookies := [] |}, ["GIF89a-pixel"]).
Proof.
  assert (H1 : path_segments pixel_request = ["octocat"; "readme"]) by reflexivity.
  assert (H2 : Cookie_cid pixel_request = None) by reflexivity.
  assert (H3 : rand_err no_entropy_world = Some "entropy source unavailable")
    by reflexivity.
  exact (conj H1 (conj H2 (conj H3
    (identity_failure_non_fatal no_entropy_world pixel_request _ _ _ H1 H2 H3)))).
Defined.

Lemma root_redirect_witness :
  Trim (URL_Path root_request) "/" = "" ∧
  Status <$> st_head (serve sample_world root_request) = Some 302 ∧
  (st_head (serve sample_world root_request) ≫= λ h, SentHeader h !! "Location")
    = Some "https://github.com/igrigorik/ga-beacon" ∧
  SentCookies <$> st_head (serve sample_world root_request) = Some [] ∧
  st_cookies (serve sample_world root_request) = [] ∧
  st_payloads (serve sample_world root_request) = [] ∧
  st_posts (serve sample_world root_request) = [].
Proof.
  assert (H1 : Trim (URL_Path root_request) "/" = "") by reflexivity.
  exact (conj H1 (root_redirect_untracked sample_world root_request H1)).
Defined.

(** [GET /octocat]: the account page is rendered; no cookie, no tracking. *)
Example account_page_example :
  st_body (serve sample_world account_request) = ["<html>"; "octocat"; "</html>"] ∧
  Status <$> st_head (serve sample_world account_request) = Some 200 ∧
  st_cookies (serve sample_world account_request) = [] ∧
  st_payloads (serve sample_world account_request) = [] ∧
  st_posts (serve sample_world account_request) = [].
Proof. vm_compute. repeat split. Qed.

(** [GET /octocat/readme?pixel] without a cookie: the cookie is set, one
    event is posted and the pixel is served. *)
Example pixel_example :
  st_cookies (serve sample_world pixel_request) =
    [{| cookie_Name := "cid"; cookie_Value := "c8d9eafb0c1d4e3f9061728394a5b6c7";
        cookie_Path := "/octocat" |}] ∧
  ClientID <$> st_payloads (serve sample_world pixel_request)
    = ["c8d9eafb0c1d4e3f9061728394a5b6c7"] ∧
  length (st_posts (serve sample_world pixel_request)) = 1%nat ∧
  st_body (serve sample_world pixel_request) = ["GIF89a-pixel"].
Proof. vm_compute. repeat split. Qed.

(** ** More on the string functions *)
Section MoreStrings.

Lemma Cut_Some (s sep a b : string) :
  Cut s sep = Some (a, b) → s = a +:+ sep +:+ b.
Proof.
  revert a. induction s as [|c s IH]; intros a; rewrite Cut_unfold.
  - destruct (after_prefix sep "") as [rest|] eqn:Hp; [|done].
    intros [= <- <-]. by apply after_prefix_Some in Hp.
  - destruct (after_prefix sep (String c s)) as [rest|] eqn:Hp.
    + intros [= <- <-]. by apply after_prefix_Some in Hp.
    + destruct (Cut s sep) as [[a' b']|]; [|done].
      intros [= <- <-]. rewrite app_String. f_equal. by apply IH.
Qed.

Lemma Cut_slash_before (s a b : string) :
  Cut s "/" = Some (a, b) → in_cutset a "/"%char = false.
Proof.
  revert a. induction s as [|c s IH]; intros a; rewrite Cut_unfold; [done|].
  cbn [after_prefix]. destruct (decide ("/"%char = c)) as [->|Hc].
  - by intros [= <- <-].
  - destruct (Cut s "/") as [[a' b']|]; [|done]. intros [= <- <-].
    cbn [in_cutset]. destruct (decide (c = "/"%char)); [congruence|]. by apply IH.
Qed.

Lemma Cut_slash_None (s : string) :
  Cut s "/" = None → in_cutset s "/"%char = false.
Proof.
  induction s as [|c s IH]; rewrite Cut_unfold; [done|].
  cbn [after_prefix]. destruct (decide ("/"%char = c)) as [->|Hc]; [done|].
  destruct (Cut s "/") as [[a' b']|]; [done|]. intros _.
  cbn [in_cutset]. destruct (decide (c = "/"%char)); [congruence|]. by apply IH.
Qed.

Lemma SplitN_nonempty (s sep : string) (n : nat) :
  (0 < n)%nat → SplitN s sep n ≠ [].
Proof.
  destruct n as [|[|n]]; [lia| |]; intros _; cbn [SplitN]; [done|].
  by destruct (Cut s sep) as [[??]|].
Qed.

Lemma SplitN_length (s sep : string) (n : nat) :
  (length (SplitN s sep n) ≤ n)%nat.
Proof.
  revert s. induction n as [|n IH]; intros s; [done|].
  destruct n as [|n]; [done|]. change (SplitN s sep (S (S n))) with
    (match Cut s sep with
     | Some (before, after) => before :: SplitN after sep (S n)
     | None => [s]
     end).
  destruct (Cut s sep) as [[a b]|]; cbn [length]; [|lia].
  specialize (IH b). lia.
Qed.

Lemma Join_SplitN (s sep : string) (n : nat) :
  (0 < n)%nat → Join (SplitN s sep n) sep = s.
Proof.
  revert s. induction n as [|n IH]; intros s Hn; [lia|].
  destruct n as [|n]; [done|].
  change (SplitN s sep (S (S n))) with
    (match Cut s sep with
     | Some (before, after) => before :: SplitN after sep (S n)
     | None => [s]
     end).
  destruct (Cut s sep) as [[a b]|] eqn:Hc; [|done].
  apply Cut_Some in Hc as ->.
  pose proof (SplitN_nonempty b sep (S n) ltac:(lia)) as Hne.
  specialize (IH b ltac:(lia)). unfold Join in *.
  destruct (SplitN b sep (S n)) as [|x xs]; [done|].
  change (a +:+ sep +:+ String.concat sep (x :: xs) = a +:+ sep +:+ b).
  by rewrite IH.
Qed.

(** X1: [strings.SplitN] with a positive [n] returns between one and [n]
    substrings, and joining them with the separator gives the string
    back. *)
Theorem SplitN_Join (s sep : string) (n : nat) :
  (0 < n)%nat →
  Join (SplitN s sep n) sep = s ∧
  (1 ≤ length (SplitN s sep n) ≤ n)%nat.
Proof.
  intros Hn. split; [by apply Join_SplitN|].
  split; [|apply SplitN_length].
  pose proof (SplitN_nonempty s sep n Hn).
  destruct (SplitN s sep n); [done|cbn; lia].
Qed.

(** X2: the path of every request splits into one or two segments that,
    joined with a slash, give the trimmed path back; the first segment
    holds no slash, and it is empty exactly for the root path. *)
Theorem path_segments_rejoin (r : Request) :
  Join (path_segments r) "/" = Trim (URL_Path r) "/" ∧
  (1 ≤ length (path_segments r) ≤ 2)%nat ∧
  ∃ account,
    path_segments r !! 0%nat = Some account ∧
    in_cutset account "/"%char = false ∧
    (account = "" ↔ Trim (URL_Path r) "/" = "").
Proof.
  pose proof (Join_SplitN (Trim (URL_Path r) "/") "/" 2 ltac:(lia)) as Hj.
  assert (Hl : (1 ≤ length (path_segments r) ≤ 2)%nat).
  { destruct (path_segments_shape r) as [[a ->]|(a & p & ->)]; cbn; lia. }
  split; [done|]. split; [done|]. clear Hl.
  pose proof (path_segments_root r) as Hroot. unfold path_segments in *.
  rewrite SplitN_2 in *.
  destruct (Cut (Trim (URL_Path r) "/") "/") as [[a b]|] eqn:Hc.
  - exists a. split; [done|]. split; [by eapply Cut_slash_before|].
    rewrite <- Hroot. cbn. symmetry. apply length_zero_empty.
  - eexists. split; [done|]. split; [by apply Cut_slash_None|]. done.
Qed.

End MoreStrings.

Section MoreTrim.

Lemma TrimLeft_split (s cutset : string) :
  ∃ l, s = l +:+ TrimLeft s cutset ∧ all_in_cutset cutset l = true.
Proof.
  induction s as [|a s (l & Hs & Hl)]; [by exists ""|].
  cbn [TrimLeft]. destruct (in_cutset cutset a) eqn:Ha; [|by exists ""].
  exists (String a l). rewrite app_String, <- Hs. split; [done|].
  cbn [all_in_cutset]. by rewrite Ha, Hl.
Qed.

Lemma TrimRight_split (s cutset : string) :
  ∃ r, s = TrimRight s cutset +:+ r ∧ all_in_cutset cutset r = true.
Proof.
  induction s as [|a s (r & Hs & Hr)]; [by exists ""|].
  cbn [TrimRight]. destruct (TrimRight s cutset) as [|b t] eqn:Ht.
  - rewrite app_empty_l in Hs. subst r.
    destruct (in_cutset cutset a) eqn:Ha.
    + exists (String a s). split; [done|]. cbn [all_in_cutset]. by rewrite Ha, Hr.
    + exists s. by split.
  - exists r. split; [|done]. by rewrite app_String, <- Hs.
Qed.

Lemma TrimLeft_first (s cutset : string) (a : ascii) :
  first_byte (TrimLeft s cutset) = Some a → in_cutset cutset a = false.
Proof.
  destruct (TrimLeft_head s cutset) as [->|(b & s' & -> & Hb)]; [done|].
  by intros [= <-].
Qed.

Lemma TrimRight_last (s cutset : string) (a : ascii) :
  last_byte (TrimRight s cutset) = Some a → in_cutset cutset a = false.
Proof.
  induction s as [|b s IH]; [done|]. cbn [TrimRight].
  destruct (TrimRight s cutset) as [|c t] eqn:Ht.
  - destruct (in_cutset cutset b) eqn:Hb; [done|]. by intros [= <-].
  - exact IH.
Qed.

Lemma TrimRight_first (s cutset : string) (a : ascii) :
  (∀ b, first_byte s = Some b → in_cutset cutset b = false) →
  first_byte (TrimRight s cutset) = Some a → in_cutset cutset a = false.
Proof.
  intros Hs. destruct s as [|b s]; [done|].
  destruct (TrimRight_head b s cutset (Hs b eq_refl)) as [s' ->].
  intros [= <-]. by apply Hs.
Qed.

Lemma TrimLeft_id (s cutset : string) :
  (∀ a, first_byte s = Some a → in_cutset cutset a = false) →
  TrimLeft s cutset = s.
Proof. destruct s as [|a s]; [done|]. intros H. cbn. by rewrite (H a). Qed.

Lemma TrimRight_id (s cutset : string) :
  (∀ a, last_byte s = Some a → in_cutset cutset a = false) →
  TrimRight s cutset = s.
Proof.
  induction s as [|a s IH]; [done|]. intros H. cbn [TrimRight].
  destruct s as [|b s].
  - cbn. by rewrite (H a).
  - rewrite IH by (intros c Hc; by apply H). done.
Qed.

(** X3: [strings.Trim] removes bytes of the cutset from the two ends and
    nothing else; what it returns neither starts nor ends with a byte of
    the cutset, and trimming it again changes nothing. *)
Theorem Trim_ends (s cutset : string) :
  (∃ l r, s = l +:+ Trim s cutset +:+ r ∧
          all_in_cutset cutset l = true ∧ all_in_cutset cutset r = true) ∧
  (∀ a, first_byte (Trim s cutset) = Some a → in_cutset cutset a = false) ∧
  (∀ a, last_byte (Trim s cutset) = Some a → in_cutset cutset a = false) ∧
  Trim (Trim s cutset) cutset = Trim s cutset.
Proof.
  assert (Hfirst : ∀ a, first_byte (Trim s cutset) = Some a →
                        in_cutset cutset a = false).
  { intros a. apply TrimRight_first. intros b. apply TrimLeft_first. }
  assert (Hlast : ∀ a, last_byte (Trim s cutset) = Some a →
                       in_cutset cutset a = false).
  { intros a. apply TrimRight_last. }
  split; [|split; [done|split; [done|]]].
  - destruct (TrimLeft_split s cutset) as (l & Hl & Hlin).
    destruct (TrimRight_split (TrimLeft s cutset) cutset) as (r & Hr & Hrin).
    exists l, r. unfold Trim. by rewrite <- Hr, <- Hl.
  - unfold Trim at 1. rewrite TrimLeft_id by done. by apply TrimRight_id.
Qed.

End MoreTrim.

Section MoreIdentity.

Variable w : World.

(** X4: [hex.EncodeToString] loses nothing: two byte sequences with the
    same encoding are the same, so identities collide only when their
    sixteen bytes do. *)
Theorem EncodeToString_injective (b b' : list ascii) :
  EncodeToString b = EncodeToString b' → b = b'.
Proof.
  intros Heq. pose proof (DecodeString_EncodeToString b) as H.
  rewrite Heq, DecodeString_EncodeToString in H. congruence.
Qed.

Lemma version_digit (x : ascii) :
  hexdigit (N.shiftr (N_of_ascii (byte_and (byte_or x 0x40) 0x4F)) 4) = "4"%char.
Proof. destruct x as [[] [] [] [] [] [] [] []]; vm_compute; reflexivity. Qed.

Lemma variant_digit (x : ascii) :
  in_cutset "89ab"
    (hexdigit (N.shiftr (N_of_ascii (byte_and (byte_or x 0x80) 0xBF)) 4)) = true.
Proof. destruct x as [[] [] [] [] [] [] [] []]; vm_compute; reflexivity. Qed.

(** X5: every identity [generateUUID] produces has the digit 4 as its
    13th character and one of 8, 9, a, b as its 17th. *)
Theorem generateUUID_digits (cid0 cid : string) :
  generateUUID w cid0 = (cid, None) →
  String.get 12 cid = Some "4"%char ∧
  ∃ c, String.get 16 cid = Some c ∧ in_cutset "89ab" c = true.
Proof.
  intros Hgen. destruct (rand_err w) as [err|] eqn:He.
  { rewrite (generateUUID_fail w cid0 err He) in Hgen. discriminate. }
  assert (cid = EncodeToString (uuid_bytes w)) as ->
    by (rewrite (generateUUID_ok' w cid0 He) in Hgen; congruence).
  rewrite uuid_bytes_eq. cbn [EncodeToString String.get].
  split; [by rewrite version_digit|].
  eexists. split; [reflexivity|]. apply variant_digit.
Qed.

Lemma FormatInt_inj (i j : Z) : FormatInt i = FormatInt j → i = j.
Proof.
  intros H. pose proof (FormatInt_decimal i) as Hi.
  rewrite H, FormatInt_decimal in Hi. congruence.
Qed.

(** X6: two session ids are equal exactly when the clock readings they
    are made from fall into the same Unix second. *)
Theorem session_id_per_second (s1 s2 : State) :
  (generateSessionID w s1).1 = (generateSessionID w s2).1 ↔
  Unix (Now w (st_now_calls s1)) = Unix (Now w (st_now_calls s2)).
Proof.
  change ((generateSessionID w s1).1)
    with (Some (FormatInt (Unix (Now w (st_now_calls s1))))).
  change ((generateSessionID w s2).1)
    with (Some (FormatInt (Unix (Now w (st_now_calls s2))))).
  split; [intros [= H]; by apply FormatInt_inj|congruence].
Qed.

End MoreIdentity.

Section MoreHandler.

Variable w : World.

Lemma handler_account (r : Request) (account : string) :
  Trim (URL_Path r) "/" ≠ "" →
  handler_params r = [account] →
  handler w r initial = account_page w account (Header_Referer r) initial.
Proof.
  intros Ht Hp. rewrite handler_eq, Hp.
  case_decide as Hroot; [by apply path_segments_root in Hroot|].
  by case_decide.
Qed.

Lemma serve_account (r : Request) (account : string) :
  Trim (URL_Path r) "/" ≠ "" →
  handler_params r = [account] →
  serve w r = (account_page w account (Header_Referer r) initial).2.
Proof. intros Ht Hp. unfold serve. by rewrite (handler_account r account Ht Hp). Qed.

Lemma single_param_is_path (r : Request) (account : string) :
  handler_params r = [account] → account = Trim (URL_Path r) "/".
Proof.
  rewrite handler_params_eq. intros Hp.
  assert (Hs : path_segments r = [account]).
  { destruct (path_segments_shape r) as [[a Ha]|(a & p & Ha)]; rewrite Ha in *;
      case_decide; congruence. }
  pose proof (Join_SplitN (Trim (URL_Path r) "/") "/" 2 ltac:(lia)) as Hj.
  fold (path_segments r) in Hj. by rewrite Hs in Hj.
Qed.

(** X7: a request whose effective path is a single segment gets the
    account page: the template is executed on the trimmed path and the
    raw [Referer]; when it succeeds, the chunks it has written are the
    body, in order, with status 200 fixed by the first of them (nothing is
    sent by the handler when it has written none), and there is no cookie,
    no log line, no clock reading and no tracking. *)
Theorem account_page_untracked (r : Request) (account : string)
    (chunks : list string) :
  Trim (URL_Path r) "/" ≠ "" →
  handler_params r = [account] →
  ExecuteTemplate w account (Header_Referer r) = (chunks, None) →
  account = Trim (URL_Path r) "/" ∧
  returns w r ∧
  response (serve w r) =
    (match chunks with
     | [] => (None, [])
     | _ :: _ =>
         (Some {| Status := 200; SentHeader := ∅; SentCookies := [] |}, chunks)
     end) ∧
  st_cookies (serve w r) = [] ∧
  st_payloads (serve w r) = [] ∧
  st_posts (serve w r) = [] ∧
  st_log (serve w r) = [] ∧
  st_now_calls (serve w r) = 0%nat.
Proof.
  intros Ht Hp He. split; [by apply single_param_is_path|].
  unfold returns. rewrite (serve_account r account Ht Hp). unfold serve.
  rewrite (handler_account r account Ht Hp). unfold account_page. rewrite He.
  rewrite bind_run, Write_all_run. cbn [fst snd].
  destruct chunks; run; repeat split; done.
Qed.

(** X8: when the page template fails, the error is logged and the
    message [could not show account page] is written after the chunks the
    template had written; the status is 500, with a plain-text content
    type, only when the template had written no chunk, and otherwise it is
    the 200 fixed by the first chunk, with no header. Nothing is
    tracked. *)
Theorem account_page_failure (r : Request) (account : string)
    (chunks : list string) (err : error) :
  Trim (URL_Path r) "/" ≠ "" →
  handler_params r = [account] →
  ExecuteTemplate w account (Header_Referer r) = (chunks, Some err) →
  st_log (serve w r) = [LogTemplateError err] ∧
  response (serve w r) =
    (match chunks with
     | [] =>
         (Some {| Status := 500;
                  SentHeader := {[ "Content-Type" := "text/plain; charset=utf-8";
                                   "X-Content-Type-Options" := "nosniff" ]};
                  SentCookies := [] |},
          ["could not show account page" +:+ newline])
     | _ :: _ =>
         (Some {| Status := 200; SentHeader := ∅; SentCookies := [] |},
          chunks ++ ["could not show account page" +:+ newline])
     end) ∧
  st_cookies (serve w r) = [] ∧
  st_payloads (serve w r) = [] ∧
  st_posts (serve w r) = [].
Proof.
  intros Ht Hp He.
  rewrite (serve_account r account Ht Hp). unfold account_page. rewrite He.
  rewrite bind_run, Write_all_run. cbn [fst snd].
  destruct chunks; run; repeat split; done.
Qed.

(** X9: a request for [/account] with the key [useReferer] and a referer
    that is not empty after stripping is not given the account page: it
    is tracked with the stripped referer as page, the selected image is
    served when the handler returns, and a cookie that is set has as path
    [/account] without the bytes a cookie path cannot hold (the semicolon
    and the bytes outside 0x20-0x7E). *)
Theorem useReferer_tracks_account (r : Request) (account : string) :
  path_segments r = [account] →
  account ≠ "" →
  is_Some (URL_Query r !! "useReferer") →
  stripped_referer r ≠ "" →
  tracked_request r ∧
  handler_params r = [account; stripped_referer r] ∧
  (returns w r →
   st_body (serve w r) = [(selected_image (assets w) (URL_Query r)).2]) ∧
  ∀ c, c ∈ st_cookies (serve w r) →
    cookie_Path c = sanitizeCookiePath ("/" +:+ account) ∧
    list_ascii_of_string (cookie_Path c) =
      filter (λ b, (0x20 ≤ N_of_ascii b < 0x7f)%N ∧ b ≠ ";"%char)
        (list_ascii_of_string ("/" +:+ account)).
Proof.
  intros Hp Ha Hk Hs.
  assert (Hr : Header_Referer r ≠ "").
  { intros Hr. apply Hs. unfold stripped_referer. by rewrite Hr. }
  assert (Hparams : handler_params r = [account; stripped_referer r]).
  { rewrite handler_params_eq, Hp. case_decide; [done|tauto]. }
  assert (Ht : tracked_request r).
  { split; [|by rewrite Hparams]. intros He.
    apply path_segments_root in He. rewrite Hp in He. cbn in He.
    by apply length_zero_empty in He. }
  split; [done|]. split; [done|]. split.
  { intros Hret. destruct (serve_tracked_returns w r Ht Hret) as (Hresp & _).
    cbn zeta in Hresp. unfold response in Hresp. by injection Hresp as _ Hb. }
  pose proof (serve_tracked_fields w r Ht) as H. cbn zeta in H.
  destruct H as (_ & _ & _ & Hck & _).
  intros c. rewrite Hck. unfold client_identity.
  destruct (Cookie_cid r); [by intros ?%elem_of_nil|].
  destruct (generateUUID w "") as [cid [err|]]; [by intros ?%elem_of_nil|].
  cbn. intros ->%list_elem_of_singleton. rewrite Hparams.
  cbn [cookie_Path]. split; [done|]. apply sanitizeCookiePath_filter.
Qed.

(** X10: a [cid] cookie with an empty value switches tracking off: no
    identity is generated, no cookie is set, the clock is not read,
    nothing is dispatched, and the image is served with [Content-Type] as
    its only header. *)
Theorem empty_cookie_disables_tracking (r : Request) :
  tracked_request r →
  Cookie_cid r = Some "" →
  let image := selected_image (assets w) (URL_Query r) in
  response (serve w r) =
    (Some {| Status := 200; SentHeader := {[ "Content-Type" := image.1 ]};
             SentCookies := [] |}, [image.2]) ∧
  st_cookies (serve w r) = [] ∧
  st_payloads (serve w r) = [] ∧
  st_posts (serve w r) = [] ∧
  st_log (serve w r) = [LogExistingCID ""] ∧
  st_now_calls (serve w r) = 0%nat.
Proof.
  intros Ht Hc. pose proof (serve_tracked_fields w r Ht) as H. cbn zeta in H.
  rewrite (client_identity_cookie w r _ _ "" Hc) in H.
  cbn [fst snd default from_option id] in H.
  rewrite !decide_False in H by (by intros ?).
  destruct H as (_ & Hr & Hh & Hck & Hpl & Hpo & Hlog).
  rewrite Hr, Hck, Hpl, Hpo, Hlog. repeat split.
  unfold serve.
  rewrite (handler_tracked_run w r Ht), (client_identity_cookie w r _ _ "" Hc).
  cbn [fst snd default from_option id]. rewrite decide_False by (by intros ?).
  by rewrite write_image_run.
Qed.

Lemma dispatched_tracked (r : Request) (payload : GA4Payload) :
  payload ∈ st_payloads (serve w r) →
  tracked_request r ∧
  (client_identity w r (handler_params r) initial).1 = Some (ClientID payload) ∧
  ClientID payload ≠ "" ∧
  payload = tracked_payload w r (ClientID payload) 0.
Proof.
  intros Hin.
  destruct (decide (Trim (URL_Path r) "/" ≠ "" ∧ length (handler_params r) = 2%nat))
    as [Ht|Hn].
  - destruct (serve_tracked_fields w r Ht) as (_ & _ & _ & _ & Hpl & _).
    cbn zeta in Hpl. rewrite Hpl in Hin. case_decide; [|by apply elem_of_nil in Hin].
    apply list_elem_of_singleton in Hin as ->.
    split; [done|]. split; [apply client_identity_total|]. done.
  - destruct (serve_untracked w r Hn) as [Hpl _]. rewrite Hpl in Hin.
    by apply elem_of_nil in Hin.
Qed.

(** X11: whenever a payload is dispatched and the handler returns, the
    response has status 200 and carries the payload's [client_id] in the
    header [Cid], the time of the handler's first clock reading in
    [Expires], the no-cache [Cache-Control], and no header besides these,
    [Content-Type] and the [Set-Cookie] line of the cookie set on this
    request: none when the request came with a [cid] cookie, and otherwise
    one, for the cookie [cid] with the payload's [client_id] as value. *)
Theorem tracking_headers_sent (r : Request) (payload : GA4Payload) :
  payload ∈ st_payloads (serve w r) →
  returns w r →
  ∃ h,
    st_head (serve w r) = Some h ∧
    Status h = 200 ∧
    SentHeader h !! "Cid" = Some (ClientID payload) ∧
    SentHeader h !! "Expires" = Some (Format (Now w 0) TimeFormat) ∧
    SentHeader h !! "Cache-Control"
      = Some "no-cache, no-store, must-revalidate, private" ∧
    dom (SentHeader h) = {[ "Content-Type"; "Cid"; "Expires"; "Cache-Control" ]} ∧
    SentCookies h = st_cookies (serve w r) ∧
    match Cookie_cid r with
    | Some _ => SentCookies h = []
    | None =>
        ∃ c, SentCookies h = [c] ∧ cookie_Name c = "cid" ∧
             cookie_Value c = ClientID payload
    end.
Proof.
  intros (Ht & Hcid & Hne & _)%dispatched_tracked Hret.
  pose proof (serve_tracked_returns w r Ht Hret) as [Hr _].
  pose proof (serve_tracked_fields w r Ht) as H. cbn zeta in H, Hr.
  destruct H as (_ & _ & _ & Hck & _).
  rewrite Hcid in Hr. cbn [default from_option id] in Hr.
  rewrite !decide_True in Hr by done.
  unfold response in Hr. injection Hr as Hh _.
  eexists. split; [exact Hh|]. cbn [Status SentHeader SentCookies].
  unfold tracking_headers.
  split; [done|]. split; [by simplify_map_eq|]. split; [by simplify_map_eq|].
  split; [by simplify_map_eq|].
  split; [rewrite !dom_insert_L, dom_empty_L; set_solver|].
  split; [done|].
  destruct (Cookie_cid r) as [value|] eqn:Hc.
  - by rewrite (client_identity_cookie w r _ _ value Hc).
  - destruct (rand_err w) as [err|] eqn:He.
    { rewrite (client_identity_failed w r _ _ err Hc He) in Hcid.
      cbn in Hcid. congruence. }
    pose proof (EncodeToString_lower (uuid_bytes w)) as Hhex.
    rewrite (client_identity_new w r _ _ Hc He) in Hcid |- *.
    rewrite (generateUUID_ok' w "" He) in Hcid |- *.
    remember (EncodeToString (uuid_bytes w)) as cid eqn:Heq. clear Heq.
    cbn zeta in *. cbn [fst snd] in *. injection Hcid as Hcid.
    eexists. split; [reflexivity|]. split; [reflexivity|].
    cbn [cookie_Value]. rewrite <- Hcid. by apply sanitizeCookieValue_hex.
Qed.

Lemma page_view_event_query (r : Request) (session_id timestamp ua ip : string) :
  page_view_event session_id timestamp (handler_query r) ua ip =
  page_view_event session_id timestamp (URL_Query r) ua ip.
Proof.
  assert (Hparams : Params (page_view_event session_id timestamp (handler_query r) ua ip)
                  = Params (page_view_event session_id timestamp (URL_Query r) ua ip)).
  { apply map_eq. intros key.
    destruct (after_prefix "custom_" key) as [k|] eqn:Hkey.
    - apply after_prefix_Some in Hkey as ->. rewrite !event_custom.
      destruct (decide (k = "referer")) as [->|Hk].
      + change (isReservedParam "referer") with true.
        destruct (handler_query r !! "referer") as [[|??]|];
          by destruct (URL_Query r !! "referer") as [[|??]|].
      + by rewrite handler_query_other.
    - rewrite !event_base; [done|..]; intros k ->;
        by rewrite after_prefix_app in Hkey. }
  unfold page_view_event in *. cbn [Params] in Hparams. by rewrite Hparams.
Qed.

(** X12: a dispatched payload is made of the request's own query, its
    [User-Agent], its remote address, the identity and two clock readings:
    neither the path segments nor the [Referer] header enter it. Its
    identity is the cookie's value whenever there is a cookie. *)
Theorem payload_ignores_path_and_referer (r : Request) (payload : GA4Payload) :
  payload ∈ st_payloads (serve w r) →
  payload = logHit_payload w (URL_Query r) (Header_UserAgent r) (RemoteAddr r)
              (ClientID payload) 1 ∧
  (Cookie_cid r = None ∨ Cookie_cid r = Some (ClientID payload)).
Proof.
  intros (Ht & Hcid & Hne & Hp)%dispatched_tracked. split.
  - rewrite Hp at 1. unfold tracked_payload, logHit_payload.
    by rewrite page_view_event_query.
  - destruct (Cookie_cid r) as [value|] eqn:Hc; [|by left].
    right. rewrite (client_identity_cookie w r _ _ value Hc) in Hcid.
    cbn [fst] in Hcid. by injection Hcid as ->.
Qed.


(** X13: a request handed to the HTTP client is the only one of its
    handler run: a POST to the collect address with the configured
    measurement id and secret, the [User-Agent] of the incoming request, a
    JSON content type, and the serialization of the one dispatched payload
    as body. *)
Theorem outbound_request_shape (r : Request) (req : OutRequest) :
  req ∈ st_posts (serve w r) →
  st_posts (serve w r) = [req] ∧
  ∃ payload,
    st_payloads (serve w r) = [payload] ∧
    json_Marshal w payload = inl (out_Body req) ∧
    out_Method req = "POST" ∧
    out_URL req =
      "https://www.google-analytics.com/mp/collect?measurement_id="
      +:+ MeasurementID (config w) +:+ "&api_secret=" +:+ APISecret (config w) ∧
    out_Header req = [("User-Agent", Header_UserAgent r);
                      ("Content-Type", "application/json")].
Proof.
  intros Hin.
  destruct (decide (Trim (URL_Path r) "/" ≠ "" ∧ length (handler_params r) = 2%nat))
    as [Ht|Hn].
  - destruct (serve_tracked_fields w r Ht) as (_ & _ & _ & _ & Hpl & Hpo & _).
    cbn zeta in *. rewrite Hpl, Hpo in *.
    case_decide; [|by apply elem_of_nil in Hin].
    unfold delivery_posts in *.
    destruct (json_Marshal w _) as [json|err] eqn:Hj; [|by apply elem_of_nil in Hin].
    destruct (url_Parse_error w _); [by apply elem_of_nil in Hin|].
    apply list_elem_of_singleton in Hin as ->. split; [done|].
    eexists. split; [done|]. by rewrite Hj.
  - destruct (serve_untracked w r Hn) as (_ & Hpo & _). rewrite Hpo in Hin.
    by apply elem_of_nil in Hin.
Qed.

End MoreHandler.

(** X14: the parameters of an event do not depend on the order in which
    the loop of [logHit] visits the query map. *)
Theorem event_params_any_order (session_id timestamp ua ip : string)
    (query : gmap string (list string)) (entries : list (string * list string)) :
  entries ≡ₚ map_to_list query →
  range_query entries (base_params session_id timestamp ua ip)
  = Params (page_view_event session_id timestamp query ua ip).
Proof.
  intros Hperm. cbn [Params page_view_event]. fold (base_params session_id timestamp ua ip).
  apply range_query_order; [|done].
  rewrite Hperm. apply NoDup_fst_map_to_list.
Qed.

(** ** Start-up *)
Section Startup.

Variable h : Host.

Lemma loadConfig_ok (config0 config : Config) (log : list StartLog) :
  loadConfig h config0 = (config, log, None) →
  MeasurementID config ≠ "" ∧ APISecret config ≠ "" ∧
  log = [LogLoadedConfig (MeasurementID config)].
Proof.
  unfold loadConfig.
  destruct (ReadFile h _) as [data|err]; [|done].
  destruct (json_Unmarshal h data config0) as [c [err|]]; [done|].
  destruct (decide (MeasurementID c = "" ∨ APISecret c = "")) as [|Hv]; [done|].
  intros [= <- <-].
  split; [intros He; apply Hv; by left|].
  split; [intros He; apply Hv; by right|]. done.
Qed.

Lemma loadConfig_error_log (config0 config : Config) (log : list StartLog)
    (err : error) :
  loadConfig h config0 = (config, log, Some err) → log = [].
Proof.
  unfold loadConfig.
  destruct (ReadFile h _) as [data|e]; [|by intros [= <- <- <-]].
  destruct (json_Unmarshal h data config0) as [c [e|]]; [by intros [= <- <- <-]|].
  case_decide as Hv; [|done]. by intros [= <- <- <-].
Qed.


(** X15: [loadConfig] returns no error only when the file named by
    [CONFIG_FILE], or [config.json] when that is unset or empty, was read
    and parsed and left both credentials non-empty; it then logs the
    measurement id, once. *)
Theorem loadConfig_valid (config0 config : Config) (log : list StartLog) :
  loadConfig h config0 = (config, log, None) →
  MeasurementID config ≠ "" ∧
  APISecret config ≠ "" ∧
  log = [LogLoadedConfig (MeasurementID config)] ∧
  ∃ data,
    ReadFile h (if decide (Getenv h "CONFIG_FILE" = "") then "config.json"
                else Getenv h "CONFIG_FILE") = inl data ∧
    json_Unmarshal h data config0 = (config, None).
Proof.
  unfold loadConfig, config_file.
  assert (Hfile : (if decide (Getenv h "CONFIG_FILE" ≠ "")
                   then Getenv h "CONFIG_FILE" else "config.json")
                = (if decide (Getenv h "CONFIG_FILE" = "") then "config.json"
                   else Getenv h "CONFIG_FILE")) by (repeat case_decide; done).
  cbn zeta. rewrite Hfile. clear Hfile.
  destruct (ReadFile h _) as [data|err] eqn:Hread; [|done].
  destruct (json_Unmarshal h data config0) as [c [err|]] eqn:Hjson; [done|].
  destruct (decide (MeasurementID c = "" ∨ APISecret c = "")) as [|Hv]; [done|].
  intros [= <- <-].
  split; [intros He; apply Hv; by left|].
  split; [intros He; apply Hv; by right|]. eauto.
Qed.

(** X16: when [main] comes to listen, the configuration holds both
    credentials, the handler is registered for [/], the address is [:]
    followed by [PORT], or by 8080 when [PORT] is empty, and a fatal line
    is logged only for the error [ListenAndServe] returned. *)
Theorem main_listens_when_configured (addr : string) :
  proc_listen (main h) = Some addr →
  MeasurementID (proc_config (main h)) ≠ "" ∧
  APISecret (proc_config (main h)) ≠ "" ∧
  proc_routes (main h) = ["/"] ∧
  addr = ":" +:+ (if decide (Getenv h "PORT" = "") then "8080" else Getenv h "PORT") ∧
  (∀ err, LogFatal err ∈ proc_log (main h) →
     ListenAndServe h addr = Some err ∧ proc_exit (main h) = Some 1).
Proof.
  unfold main.
  destruct (loadConfig h _) as [[config log] [err|]] eqn:Hl; [done|].
  apply loadConfig_ok in Hl as (Hm & Hs & ->).
  destruct (decide (Getenv h "PORT" = "")) as [Hport|Hport];
    destruct (ListenAndServe h _) as [e|] eqn:Hls; cbn;
    intros [= <-]; (do 4 (split; [done|])); intros err' Hin;
    repeat (apply elem_of_cons in Hin as [Hin|Hin]; [simplify_eq|]);
    try (by apply elem_of_nil in Hin); done.
Qed.

(** X17: when [main] does not come to listen, [loadConfig] has failed:
    its error is the only line logged, no handler is registered and the
    process exits with code 1. *)
Theorem main_exits_without_config :
  proc_listen (main h) = None →
  proc_exit (main h) = Some 1 ∧
  proc_routes (main h) = [] ∧
  ∃ err,
    (loadConfig h {| MeasurementID := ""; APISecret := "" |}).2 = Some err ∧
    proc_log (main h) = [LogFatal err].
Proof.
  unfold main.
  destruct (loadConfig h _) as [[config log] [err|]] eqn:Hl; cbn.
  - intros _. apply loadConfig_error_log in Hl as ->. eauto.
  - case_decide; destruct (ListenAndServe h _); done.
Qed.


End Startup.

(** ** The further properties at the sample requests *)

Lemma SplitN_Join_witness :
  (0 < 2)%nat ∧
  Join (SplitN "octocat/a/b" "/" 2) "/" = "octocat/a/b" ∧
  (1 ≤ length (SplitN "octocat/a/b" "/" 2) ≤ 2)%nat.
Proof.
  assert (H : (0 < 2)%nat) by lia.
  exact (conj H (SplitN_Join "octocat/a/b" "/" 2 H)).
Defined.

Lemma EncodeToString_injective_witness :
  EncodeToString ["000"; "171"]%char
    = EncodeToString (ascii_of_nat <$> [0; 171]%nat) ∧
  ["000"; "171"]%char = ascii_of_nat <$> [0; 171]%nat.
Proof.
  assert (H : EncodeToString ["000"; "171"]%char
              = EncodeToString (ascii_of_nat <$> [0; 171]%nat)) by reflexivity.
  exact (conj H (EncodeToString_injective _ _ H)).
Defined.

Lemma generateUUID_digits_witness :
  generateUUID sample_world "" = ("c8d9eafb0c1d4e3f9061728394a5b6c7", None) ∧
  String.get 12 "c8d9eafb0c1d4e3f9061728394a5b6c7" = Some "4"%char ∧
  ∃ c, String.get 16 "c8d9eafb0c1d4e3f9061728394a5b6c7" = Some c ∧
       in_cutset "89ab" c = true.
Proof.
  assert (H : generateUUID sample_world ""
              = ("c8d9eafb0c1d4e3f9061728394a5b6c7", None)) by reflexivity.
  exact (conj H (generateUUID_digits sample_world "" _ H)).
Defined.

Lemma account_page_witness :
  Trim (URL_Path account_request) "/" ≠ "" ∧
  handler_params account_request = ["octocat"] ∧
  ExecuteTemplate sample_world "octocat" (Header_Referer account_request)
    = (["<html>"; "octocat"; "</html>"], None) ∧
  response (serve sample_world account_request) =
    (Some {| Status := 200; SentHeader := ∅; SentCookies := [] |},
     ["<html>"; "octocat"; "</html>"]).
Proof.
  assert (H1 : Trim (URL_Path account_request) "/" ≠ "") by discriminate.
  assert (H2 : handler_params account_request = ["octocat"]) by reflexivity.
  assert (H3 : ExecuteTemplate sample_world "octocat" (Header_Referer account_request)
               = (["<html>"; "octocat"; "</html>"], None)) by reflexivity.
  exact (conj H1 (conj H2 (conj H3
    (proj1 (proj2 (proj2 (account_page_untracked sample_world account_request _ _
                            H1 H2 H3))))))).
Defined.

Lemma account_page_failure_witness :
  Trim (URL_Path account_request) "/" ≠ "" ∧
  handler_params account_request = ["octocat"] ∧
  (Status <$> (response (serve broken_template_world account_request)).1) = Some 500 ∧
  response (serve half_template_world account_request) =
    (Some {| Status := 200; SentHeader := ∅; SentCookies := [] |},
     ["<html>"; "octocat"; "could not show account page" +:+ newline]).
Proof.
  assert (H1 : Trim (URL_Path account_request) "/" ≠ "") by discriminate.
  assert (H2 : handler_params account_request = ["octocat"]) by reflexivity.
  refine (conj H1 (conj H2 (conj _ _))).
  - rewrite (proj1 (proj2 (account_page_failure broken_template_world
               account_request "octocat" [] "template: no such template"
               H1 H2 eq_refl))). reflexivity.
  - exact (proj1 (proj2 (account_page_failure half_template_world
               account_request "octocat" ["<html>"; "octocat"]
               "template: broken pipe" H1 H2 eq_refl))).
Defined.

Lemma useReferer_tracks_account_witness :
  path_segments account_referer_request = ["octocat"] ∧
  is_Some (URL_Query account_referer_request !! "useReferer") ∧
  stripped_referer account_referer_request = "example.com/page" ∧
  tracked_request account_referer_request ∧
  handler_params account_referer_request = ["octocat"; "example.com/page"].
Proof.
  assert (H1 : path_segments account_referer_request = ["octocat"]) by reflexivity.
  assert (H2 : ("octocat" : string) ≠ "") by discriminate.
  assert (H3 : is_Some (URL_Query account_referer_request !! "useReferer"))
    by (by eexists).
  assert (H4 : stripped_referer account_referer_request ≠ "") by discriminate.
  destruct (useReferer_tracks_account sample_world account_referer_request
              "octocat" H1 H2 H3 H4) as (Ht & Hp & _).
  exact (conj H1 (conj H3 (conj eq_refl (conj Ht Hp)))).
Defined.

Lemma empty_cookie_witness :
  tracked_request empty_cookie_request ∧
  Cookie_cid empty_cookie_request = Some "" ∧
  st_payloads (serve sample_world empty_cookie_request) = [] ∧
  st_cookies (serve sample_world empty_cookie_request) = [].
Proof.
  assert (H1 : tracked_request empty_cookie_request)
    by (split; [discriminate|reflexivity]).
  assert (H2 : Cookie_cid empty_cookie_request = Some "") by reflexivity.
  destruct (empty_cookie_disables_tracking sample_world empty_cookie_request H1 H2)
    as (_ & Hc & Hp & _).
  exact (conj H1 (conj H2 (conj Hp Hc))).
Defined.

Lemma tracking_headers_witness :
  flat_payload ∈ st_payloads (serve sample_world flat_request) ∧
  returns sample_world flat_request ∧
  ∃ h,
    st_head (serve sample_world flat_request) = Some h ∧
    SentHeader h !! "Cid" = Some "0123456789abcdef0123456789abcdef" ∧
    SentHeader h !! "Expires" = Some "Fri, 31 Oct 2025 00:00:00 GMT".
Proof.
  assert (H1 : flat_payload ∈ st_payloads (serve sample_world flat_request)).
  { rewrite flat_payload_dispatched. apply list_elem_of_here. }
  assert (H2 : returns sample_world flat_request) by reflexivity.
  destruct (tracking_headers_sent sample_world flat_request flat_payload H1 H2)
    as (h & Hh & _ & Hcid & Hexp & _).
  exact (conj H1 (conj H2 (ex_intro _ h (conj Hh (conj Hcid Hexp))))).
Defined.

Lemma payload_ignores_witness :
  flat_payload ∈ st_payloads (serve sample_world flat_request) ∧
  flat_payload =
    logHit_payload sample_world (URL_Query flat_request) "Mozilla/5.0"
      "203.0.113.7:4711" "0123456789abcdef0123456789abcdef" 1.
Proof.
  assert (H1 : flat_payload ∈ st_payloads (serve sample_world flat_request)).
  { rewrite flat_payload_dispatched. apply list_elem_of_here. }
  exact (conj H1
    (proj1 (payload_ignores_path_and_referer sample_world flat_request _ H1))).
Defined.

Lemma pixel_post_sent :
  st_posts (serve sample_world pixel_request) = [pixel_post].
Proof. vm_compute. reflexivity. Qed.

Lemma outbound_request_witness :
  pixel_post ∈ st_posts (serve sample_world pixel_request) ∧
  st_posts (serve sample_world pixel_request) = [pixel_post].
Proof.
  assert (H1 : pixel_post ∈ st_posts (serve sample_world pixel_request)).
  { rewrite pixel_post_sent. apply list_elem_of_here. }
  exact (conj H1 (proj1 (outbound_request_shape sample_world pixel_request _ H1))).
Defined.

Lemma event_params_order_witness :
  reverse (map_to_list (URL_Query flat_request))
    ≡ₚ map_to_list (URL_Query flat_request) ∧
  range_query (reverse (map_to_list (URL_Query flat_request)))
    (base_params "1761868800" "2025-10-31T00:00:00Z" "Mozilla/5.0" "203.0.113.7:4711")
  = Params (page_view_event "1761868800" "2025-10-31T00:00:00Z"
              (URL_Query flat_request) "Mozilla/5.0" "203.0.113.7:4711").
Proof.
  assert (H1 : reverse (map_to_list (URL_Query flat_request))
               ≡ₚ map_to_list (URL_Query flat_request))
    by apply reverse_Permutation.
  exact (conj H1 (event_params_any_order _ _ _ _ _ _ H1)).
Defined.

Lemma loadConfig_valid_witness :
  loadConfig sample_host {| MeasurementID := ""; APISecret := "" |}
    = ({| MeasurementID := "G-TEST"; APISecret := "secret" |},
       [LogLoadedConfig "G-TEST"], None) ∧
  ("G-TEST" : string) ≠ "" ∧ ("secret" : string) ≠ "".
Proof.
  assert (H1 : loadConfig sample_host {| MeasurementID := ""; APISecret := "" |}
               = ({| MeasurementID := "G-TEST"; APISecret := "secret" |},
                  [LogLoadedConfig "G-TEST"], None)) by reflexivity.
  destruct (loadConfig_valid sample_host _ _ _ H1) as (Hm & Hs & _).
  exact (conj H1 (conj Hm Hs)).
Defined.

Lemma main_listens_witness :
  proc_listen (main sample_host) = Some ":8080" ∧
  MeasurementID (proc_config (main sample_host)) ≠ "" ∧
  APISecret (proc_config (main sample_host)) ≠ "" ∧
  proc_routes (main sample_host) = ["/"].
Proof.
  assert (H1 : proc_listen (main sample_host) = Some ":8080") by reflexivity.
  destruct (main_listens_when_configured sample_host ":8080" H1)
    as (Hm & Hs & Hr & _).
  exact (conj H1 (conj Hm (conj Hs Hr))).
Defined.

Lemma main_exits_witness :
  proc_listen (main no_secret_host) = None ∧
  proc_exit (main no_secret_host) = Some 1 ∧
  proc_routes (main no_secret_host) = [].
Proof.
  assert (H1 : proc_listen (main no_secret_host) = None) by reflexivity.
  destruct (main_exits_without_config no_secret_host H1) as (He & Hr & _).
  exact (conj H1 (conj He Hr)).
Defined.

